(** * Citizen reporting backend: report processor and AQI stream simulator

    A shallow embedding of [backend/reports/processor.py],
    [backend/aqi/stream.py] and [backend/yolo/detector.py], with the
    properties of the report lifecycle, of the AQI synthesizer and of the
    simulated detector proved over it.

    Conventions of the embedding.
    - A Python [float] is taken at its exact rational value ([Q]); the
      program produces no NaN or infinity (all inputs are finite and the
      only operations are [+], [*], [/] by a non-zero constant, [min], [max],
      [round] and [math.exp], which is a parameter of the simulator).
      Comparisons of floats are comparisons of these values.
    - The module-level generator of Python's [random] is an explicit
      [source] of draws that every randomized function consumes and hands
      back.
    - The wall clock ([datetime.now()]) and [uuid.uuid4()] are explicit
      inputs.
    - A [dict] keyed by report identifier is a [gmap string _]; the city
      table, whose insertion order is observable, is an association list. *)

From Stdlib Require Import ZArith QArith Qround Lia Lqa.
From Stdlib Require Import Sorting.Permutation Sorting.Sorted.
From stdpp Require Import base option list gmap strings pretty.

Local Open Scope string_scope.

(** ** Comparisons on float values *)

Module Float.

Definition leb (x y : Q) : bool := Qle_bool x y.
Definition ltb (x y : Q) : bool := negb (Qle_bool y x).
Definition geb (x y : Q) : bool := leb y x.
Definition gtb (x y : Q) : bool := ltb y x.

(** Python's two-argument [min(a, b)]: [b] when [b < a], else [a]. *)
Definition min (a b : Q) : Q := if ltb b a then b else a.

(** Python's two-argument [max(a, b)]: [b] when [b > a], else [a]. *)
Definition max (a b : Q) : Q := if gtb b a then b else a.

(** Round half to even, on the exact value. *)
Definition round_half_even (q : Q) : Z :=
  let f := Qfloor q in
  let r := (q - inject_Z f)%Q in
  if ltb r (1 # 2) then f
  else if ltb (1 # 2) r then (f + 1)%Z
  else if Z.even f then f else (f + 1)%Z.

(** [round(x, 2)]. *)
Definition round2 (x : Q) : Q := (round_half_even (x * 100) # 100)%Q.

(** [int(x)]: truncation toward zero. *)
Definition to_int (x : Q) : Z := Z.quot (Qnum x) (Zpos (Qden x)).

End Float.

(** ** The random generator *)

Module Random.

(** The state of the generator: what the coming calls of
    [random.random()] (a float of [[0, 1)]), of the integer draw under
    [random.choice] and [random.randint], and of the standard normal
    deviate under [random.gauss] will return. *)
Record source : Type := Source {
  uniforms : nat -> Q;
  integers : nat -> nat;
  normals : nat -> Q
}.

Definition next_uniform (s : source) : Q * source :=
  (uniforms s 0%nat,
   Source (fun i => uniforms s (S i)) (integers s) (normals s)).

Definition next_integer (s : source) : nat * source :=
  (integers s 0%nat,
   Source (uniforms s) (fun i => integers s (S i)) (normals s)).

Definition next_normal (s : source) : Q * source :=
  (normals s 0%nat,
   Source (uniforms s) (integers s) (fun i => normals s (S i))).

(** A source that answers from the given lists, then with zeros. *)
Definition of_lists (us : list Q) (ns : list nat) (zs : list Q) : source :=
  Source (fun i => nth i us 0%Q) (fun i => nth i ns 0%nat)
         (fun i => nth i zs 0%Q).

(** Randomized code of the report processor, which only branches on
    draws: the test [random.random() < p] and the pick of an index below
    [n] ([random.choice] over [n] items, [random.randint] over [n]
    integers). *)
Inductive rand (A : Type) : Type :=
| Ret (a : A)
| RandomLt (p : Q) (k : bool -> rand A)
| Below (n : nat) (k : nat -> rand A).
Arguments Ret {A} a.
Arguments RandomLt {A} p k.
Arguments Below {A} n k.

Fixpoint bind {A B : Type} (f : A -> rand B) (t : rand A) : rand B :=
  match t with
  | Ret a => f a
  | RandomLt p k => RandomLt p (fun b => bind f (k b))
  | Below n k => Below n (fun i => bind f (k i))
  end.

(** [random.random() < p] *)
Definition random_lt (p : Q) : rand bool := RandomLt p Ret.

(** [random.choice([x0, x1, ...])] on a non-empty list. *)
Definition choice {A : Type} (x0 : A) (xs : list A) : rand A :=
  Below (S (length xs)) (fun i => Ret (nth i (x0 :: xs) x0)).

(** [random.randint(a, b)], both ends included. *)
Definition randint (a b : Z) : rand Z :=
  Below (Z.to_nat (b - a + 1)) (fun i => Ret (a + Z.of_nat i)%Z).

(** Running the code against a source of draws: the test reads the next
    float, the pick reduces the next integer below [n]. *)
Fixpoint run {A : Type} (t : rand A) (s : source) : A * source :=
  match t with
  | Ret a => (a, s)
  | RandomLt p k =>
      let '(u, s') := next_uniform s in run (k (Float.ltb u p)) s'
  | Below n k =>
      let '(i, s') := next_integer s in run (k (i mod n)%nat) s'
  end.

Definition sumQ (l : list Q) : Q := fold_right Qplus 0%Q l.

(** The probability of an event, for [random.random()] uniform on
    [[0, 1)] and an index drawn uniformly: [random.random() < p] holds
    with probability [p] (for [p] in [[0, 1]]). *)
Fixpoint prob {A : Type} (ev : A -> bool) (t : rand A) : Q :=
  match t with
  | Ret a => if ev a then 1%Q else 0%Q
  | RandomLt p k => (p * prob ev (k true) + (1 - p) * prob ev (k false))%Q
  | Below n k =>
      (sumQ (map (fun i => prob ev (k i)) (seq 0 n)) / inject_Z (Z.of_nat n))%Q
  end.

(** A property of every value the code can return, whatever is drawn. *)
Fixpoint always {A : Type} (P : A -> Prop) (t : rand A) : Prop :=
  match t with
  | Ret a => P a
  | RandomLt _ k => always P (k true) /\ always P (k false)
  | Below _ k => forall i, always P (k i)
  end.

End Random.

Import Random.

#[global] Instance rand_ret : MRet rand := @Ret.
#[global] Instance rand_bind : MBind rand := @bind.


(** ** Calls that may raise *)

(** What a call gives back: its value, or the [ValueError] it raises. *)
Inductive result (A : Type) : Type :=
| Returns (a : A)
| ValueError (msg : string).
Arguments Returns {A} a.
Arguments ValueError {A} msg.

(** ** reports/processor.py *)

Module Processor.

(** The four values the code gives to ["validation_status"], and to the
    [decision] of [_make_validation_decision]. *)
Inductive ValidationStatus : Type :=
| validating
| verified
| needs_review
| rejected.

#[global] Instance ValidationStatus_eq_dec : EqDecision ValidationStatus.
Proof. solve_decision. Defined.

(** The string the code uses for each. *)
Definition status_label (s : ValidationStatus) : string :=
  match s with
  | validating => "validating"
  | verified => "verified"
  | needs_review => "needs-review"
  | rejected => "rejected"
  end.

(** The part of the ["yolo_result"] dictionary the processor reads. *)
Record YoloResult : Type := {
  detected_category : option string;
  confidence : option Q
}.

(** [report_data]: the fields of [ReportSubmission] in [app.py]. *)
Record ReportData : Type := {
  rd_category : string;
  rd_latitude : Q;
  rd_longitude : Q;
  rd_location_name : string;
  rd_yolo_result : option YoloResult;
  rd_timestamp : string
}.

(** [report_record] *)
Record Report : Type := {
  report_id : string;
  category : string;
  latitude : Q;
  longitude : Q;
  location_name : string;
  yolo_result : option YoloResult;
  submitted_at : string;
  validation_status : ValidationStatus;
  validation_reason : string;
  confidence_score : Q;
  verified_at : option string;
  reward_coins : Z
}.

(** [report["validation_status"] = status] *)
Definition set_validation_status (r : Report) (s : ValidationStatus) : Report :=
  {| report_id := report_id r; category := category r;
     latitude := latitude r; longitude := longitude r;
     location_name := location_name r; yolo_result := yolo_result r;
     submitted_at := submitted_at r;
     validation_status := s;
     validation_reason := validation_reason r;
     confidence_score := confidence_score r;
     verified_at := verified_at r; reward_coins := reward_coins r |}.

(** [report["reward_coins"] = reward] *)
Definition set_reward_coins (r : Report) (reward : Z) : Report :=
  {| report_id := report_id r; category := category r;
     latitude := latitude r; longitude := longitude r;
     location_name := location_name r; yolo_result := yolo_result r;
     submitted_at := submitted_at r;
     validation_status := validation_status r;
     validation_reason := validation_reason r;
     confidence_score := confidence_score r;
     verified_at := verified_at r; reward_coins := reward |}.

(** [report["verified_at"] = t] *)
Definition set_verified_at (r : Report) (t : string) : Report :=
  {| report_id := report_id r; category := category r;
     latitude := latitude r; longitude := longitude r;
     location_name := location_name r; yolo_result := yolo_result r;
     submitted_at := submitted_at r;
     validation_status := validation_status r;
     validation_reason := validation_reason r;
     confidence_score := confidence_score r;
     verified_at := Some t; reward_coins := reward_coins r |}.

(** The object: [self.reports] and [self.validation_queue].  The
    thresholds of [self.confidence_thresholds] are set once by [__init__]
    and never written again; they are the constants below. *)
Record ReportProcessor : Type := {
  reports : gmap string Report;
  validation_queue : list string
}.

Definition threshold_high : Q := 0.75.
Definition threshold_medium : Q := 0.50.
Definition threshold_low : Q := 0.30.

(** [__init__] *)
Definition init : ReportProcessor :=
  {| reports := ∅; validation_queue := [] |}.

(** The dictionary returned by [_make_validation_decision]. *)
Record Decision : Type := {
  d_status : ValidationStatus;
  d_reason : string;
  d_confidence : Q
}.

(** The dictionary returned by [process_submission]. *)
Record SubmissionResponse : Type := {
  sr_report_id : string;
  sr_status : string;
  sr_validation_status : ValidationStatus;
  sr_estimated_verification_time : Z;
  sr_message : string
}.

(** The dictionary returned by [get_status]. *)
Record StatusResponse : Type := {
  st_report_id : string;
  st_status : ValidationStatus;
  st_category : string;
  st_location : string;
  st_submitted_at : string;
  st_verified_at : option string;
  st_confidence_score : Q;
  st_validation_reason : string;
  st_reward_coins : Z;
  st_message : string
}.

(** [_is_known_hotspot] *)
Definition _is_known_hotspot (lat lng : Q) : rand bool :=
  random_lt 0.3.

(** [_make_validation_decision].  In
    [random.choice([a, b]) if random.random() < p else c] the test is
    evaluated first and the choice only when it holds. *)
Definition _make_validation_decision
    (category : string) (yolo_confidence : Q) (location : Q * Q)
  : rand Decision :=
  '(decision, reason, confidence) ←
    (if Float.geb yolo_confidence threshold_high then
       decision ← (b ← random_lt 0.7;
                   if b : bool then choice verified [needs_review]
                   else mret needs_review);
       mret (decision,
             "High AI confidence. Visual indicators strongly match reported category.",
             yolo_confidence)
     else if Float.geb yolo_confidence threshold_medium then
       mret (needs_review,
             "Moderate AI confidence. Requires additional verification for accuracy.",
             yolo_confidence)
     else
       decision ← (b ← random_lt 0.6;
                   if b : bool then choice needs_review [rejected]
                   else mret rejected);
       mret (decision,
             "Low AI confidence. Visual conditions unclear or ambiguous.",
             yolo_confidence));
  let '(lat, lng) := location in
  hotspot ← _is_known_hotspot lat lng;
  let '(reason, confidence) :=
    if hotspot : bool then
      (reason ++ " Location matches known environmental concern area.",
       Float.min 1.0 (confidence + 0.1))
    else (reason, confidence) in
  let initial_status :=
    if decide (decision = verified) then validating else decision in
  mret {| d_status := initial_status;
          d_reason := reason;
          d_confidence := Float.round2 confidence |}.

(** [_simulate_validation_completion] *)
Definition _simulate_validation_completion (report : Report)
  : rand ValidationStatus :=
  let confidence := confidence_score report in
  if Float.geb confidence 0.75 then mret verified
  else if Float.geb confidence 0.50 then choice verified [needs_review]
  else choice needs_review [rejected].

(** [_calculate_reward] *)
Definition _calculate_reward (report : Report) : rand Z :=
  let base_reward := 10%Z in
  let confidence_bonus :=
    if Float.geb (confidence_score report) 0.8 then 5%Z else 0%Z in
  let priority_categories := ["water"; "construction"] in
  let category_bonus :=
    if bool_decide (category report ∈ priority_categories) then 5%Z else 0%Z in
  b ← random_lt 0.3;
  let location_bonus := if b : bool then 5%Z else 0%Z in
  let total :=
    (base_reward + confidence_bonus + category_bonus + location_bonus)%Z in
  mret total.

(** The part of the reward that [_calculate_reward] computes without a
    draw: the base reward and the confidence and category bonuses. *)
Definition reward_before_bonus (report : Report) : Z :=
  10 + (if Float.geb (confidence_score report) 0.8 then 5 else 0)
     + (if bool_decide (category report ∈ ["water"; "construction"])
        then 5 else 0).

(** [_estimate_verification_time] *)
Definition _estimate_verification_time (status : ValidationStatus) : rand Z :=
  if decide (status = verified) then randint 3 8
  else if decide (status = needs_review) then randint 10 30
  else randint 5 15.

(** [_get_status_message] *)
Definition _get_status_message (status : ValidationStatus) : string :=
  match status with
  | validating =>
      "🔍 AI validation in progress. This usually takes a few seconds."
  | verified =>
      "✅ Report verified! Your contribution helps monitor environmental conditions."
  | needs_review =>
      "⏳ Report queued for expert review. This may take a few minutes."
  | rejected =>
      "❌ Unable to verify this report. Consider resubmitting with clearer evidence."
  end.

(** [_generate_report_id], from the clock already formatted with
    ["%Y%m%d%H%M%S"] and the text of a fresh [uuid.uuid4()]. *)
Definition _generate_report_id (timestamp uuid4 : string) : string :=
  "RPT-" ++ timestamp ++ "-" ++ String.substring 0 8 uuid4.

(** [self.reports[report_id] = report] *)
Definition store (self : ReportProcessor) (rid : string) (r : Report)
  : ReportProcessor :=
  {| reports := <[rid := r]> (reports self);
     validation_queue := validation_queue self |}.

(** [process_submission] *)
Definition process_submission
    (timestamp uuid4 : string) (self : ReportProcessor)
    (report_data : ReportData)
  : rand (ReportProcessor * SubmissionResponse) :=
  let report_id := _generate_report_id timestamp uuid4 in
  let yolo_confidence :=
    match rd_yolo_result report_data with
    | Some y => default 0.0%Q (confidence y)
    | None => 0.0%Q
    end in
  validation_decision ←
    _make_validation_decision (rd_category report_data) yolo_confidence
      (rd_latitude report_data, rd_longitude report_data);
  let report_record :=
    {| report_id := report_id;
       category := rd_category report_data;
       latitude := rd_latitude report_data;
       longitude := rd_longitude report_data;
       location_name := rd_location_name report_data;
       yolo_result := rd_yolo_result report_data;
       submitted_at := rd_timestamp report_data;
       validation_status := d_status validation_decision;
       validation_reason := d_reason validation_decision;
       confidence_score := d_confidence validation_decision;
       verified_at := None;
       reward_coins := 0 |} in
  let self := store self report_id report_record in
  let self :=
    if decide (d_status validation_decision = needs_review) then
      {| reports := reports self;
         validation_queue := validation_queue self ++ [report_id] |}
    else self in
  estimated_time ← _estimate_verification_time (d_status validation_decision);
  mret (self,
        {| sr_report_id := report_id;
           sr_status := "submitted";
           sr_validation_status := d_status validation_decision;
           sr_estimated_verification_time := estimated_time;
           sr_message := _get_status_message (d_status validation_decision) |}).

(** [get_status], at the time [now] ([datetime.now().isoformat()]).  The
    [report] of the code is the object held by [self.reports], so each
    assignment to one of its keys is a write to the collection. *)
Definition get_status (now : string) (self : ReportProcessor)
    (report_id : string)
  : rand (ReportProcessor * result StatusResponse) :=
  match reports self !! report_id with
  | None =>
      mret (self, ValueError ("Report " ++ report_id ++ " not found"))
  | Some report =>
      let status := validation_status report in
      '(self, report, status) ←
        (if decide (status = validating) then
           status ← _simulate_validation_completion report;
           let report := set_validation_status report status in
           mret (store self report_id report, report, status)
         else mret (self, report, status));
      '(self, report, reward) ←
        (if decide (status = verified) then
           reward ← _calculate_reward report;
           let report := set_reward_coins report reward in
           let self := store self report_id report in
           let report := set_verified_at report now in
           mret (store self report_id report, report, reward)
         else mret (self, report, 0%Z));
      mret (self,
            Returns
              {| st_report_id := report_id;
                 st_status := status;
                 st_category := category report;
                 st_location := location_name report;
                 st_submitted_at := submitted_at report;
                 st_verified_at := verified_at report;
                 st_confidence_score := confidence_score report;
                 st_validation_reason := validation_reason report;
                 st_reward_coins := reward;
                 st_message := _get_status_message status |})
  end.

(** The states of the processor that calls of its two public methods
    produce from [__init__]. *)
Inductive reachable : ReportProcessor -> Prop :=
| reachable_init : reachable init
| reachable_submit (timestamp uuid4 : string) (self : ReportProcessor)
    (report_data : ReportData) (s : source) :
    reachable self ->
    reachable
      (run (process_submission timestamp uuid4 self report_data) s).1.1
| reachable_poll (now : string) (self : ReportProcessor)
    (report_id : string) (s : source) :
    reachable self ->
    reachable (run (get_status now self report_id) s).1.1.

(** A record carries no reward and no verification timestamp unless it
    is [verified], and then a reward of at least 10 and a timestamp. *)
Definition reward_consistent (r : Report) : Prop :=
  if decide (validation_status r = verified)
  then (10 <= reward_coins r)%Z /\ is_Some (verified_at r)
  else reward_coins r = 0%Z /\ verified_at r = None.

(** A client polling one report at the times [nows], a call of
    [get_status] after the other. *)
Fixpoint poll (nows : list string) (self : ReportProcessor)
    (report_id : string) (s : source)
  : list (result StatusResponse) * ReportProcessor * source :=
  match nows with
  | [] => ([], self, s)
  | now :: nows' =>
      let '(self, res, s) := run (get_status now self report_id) s in
      let '(l, self, s) := poll nows' self report_id s in
      (res :: l, self, s)
  end.

(** The event that a call of [get_status] returns the status [st]. *)
Definition returns_status (st : ValidationStatus)
    (out : ReportProcessor * result StatusResponse) : bool :=
  match out.2 with
  | Returns resp => bool_decide (st_status resp = st)
  | ValueError _ => false
  end.

(** The event that a decision carries the status [st]. *)
Definition decides_status (st : ValidationStatus) (d : Decision) : bool :=
  bool_decide (d_status d = st).

End Processor.


(** ** Naive local date and time *)

Module Datetime.

(** A [datetime] without time zone, as the count of seconds since
    1970-01-01T00:00:00 on its own calendar; microseconds, which the code
    never reads, are left out. *)
Definition datetime : Type := Z.

(** [timestamp.hour] *)
Definition hour (t : datetime) : Z := ((t mod 86400) / 3600)%Z.

(** [timestamp.minute] *)
Definition minute (t : datetime) : Z := ((t mod 3600) / 60)%Z.

(** [timestamp.weekday()]: Monday is 0 and Sunday is 6; day 0 of the
    count was a Thursday. *)
Definition weekday (t : datetime) : Z := ((t / 86400 + 3) mod 7)%Z.

(** [t - timedelta(hours=h)] *)
Definition minus_hours (t : datetime) (h : Z) : datetime := (t - 3600 * h)%Z.

(** [t - timedelta(days=d)] *)
Definition minus_days (t : datetime) (d : Z) : datetime := (t - 86400 * d)%Z.

(** [t.replace(hour=12, minute=0, second=0)] *)
Definition replace_noon (t : datetime) : datetime :=
  (t - t mod 86400 + 12 * 3600)%Z.

(** Month and day of the month in the proleptic Gregorian calendar. *)
Definition month_day (t : datetime) : Z * Z :=
  let z := (t / 86400 + 719468)%Z in
  let era := (z / 146097)%Z in
  let doe := (z - era * 146097)%Z in
  let yoe := ((doe - doe / 1460 + doe / 36524 - doe / 146096) / 365)%Z in
  let doy := (doe - (365 * yoe + yoe / 4 - yoe / 100))%Z in
  let mp := ((5 * doy + 2) / 153)%Z in
  let d := (doy - (153 * mp + 2) / 5 + 1)%Z in
  let m := (if mp <? 10 then mp + 3 else mp - 9)%Z in
  (m, d).

Definition digit (n : Z) : string :=
  String (Ascii.ascii_of_nat (48 + Z.to_nat n)) EmptyString.

Definition two_digits (n : Z) : string :=
  digit (n / 10) ++ digit (n mod 10).

Definition month_abbr (m : Z) : string :=
  nth (Z.to_nat (m - 1))
    ["Jan"; "Feb"; "Mar"; "Apr"; "May"; "Jun";
     "Jul"; "Aug"; "Sep"; "Oct"; "Nov"; "Dec"] "".

(** [t.strftime("%H:%M")] *)
Definition strftime_HM (t : datetime) : string :=
  two_digits (hour t) ++ ":" ++ two_digits (minute t).

(** [t.strftime("%b %d")], in the C locale. *)
Definition strftime_bd (t : datetime) : string :=
  let '(m, d) := month_day t in month_abbr m ++ " " ++ two_digits d.

End Datetime.

(** ** Built-ins on lists *)

Module Builtins.

(** [range(start, stop, -1)]: [start], [start - 1], ... down to
    [stop + 1]. *)
Definition range_down (start stop : Z) : list Z :=
  map (fun i => (start - Z.of_nat i)%Z) (seq 0 (Z.to_nat (start - stop))).

Section Sort.
Context {A : Type} (key : A -> Z).

(** [x] goes in front of the first item whose key is not above its
    own. *)
Fixpoint insert_desc (x : A) (l : list A) : list A :=
  match l with
  | [] => [x]
  | y :: l' => if (key x <? key y)%Z then y :: insert_desc x l' else x :: l
  end.

(** [l.sort(key=key, reverse=True)].  The sort of Python is stable, also
    under [reverse=True]: items with equal keys keep the order they had.
    It is rendered by an insertion sort (what the sort of CPython runs on
    a list this short), each item entering the sorted rest of the list. *)
Definition sort_reverse (l : list A) : list A :=
  fold_right insert_desc [] l.

End Sort.

End Builtins.


(** ** aqi/stream.py *)

Module Stream.

Import Datetime Builtins.

(** The values returned by [_get_severity]. *)
Inductive Severity : Type :=
| good
| moderate
| unhealthy_sensitive
| unhealthy
| very_unhealthy
| hazardous.

#[global] Instance Severity_eq_dec : EqDecision Severity.
Proof. solve_decision. Defined.

(** The string the code uses for each. *)
Definition severity_label (s : Severity) : string :=
  match s with
  | good => "good"
  | moderate => "moderate"
  | unhealthy_sensitive => "unhealthy-sensitive"
  | unhealthy => "unhealthy"
  | very_unhealthy => "very-unhealthy"
  | hazardous => "hazardous"
  end.

(** The rank of a severity in the order good < moderate <
    unhealthy-sensitive < unhealthy < very-unhealthy < hazardous. *)
Definition severity_rank (s : Severity) : nat :=
  match s with
  | good => 0
  | moderate => 1
  | unhealthy_sensitive => 2
  | unhealthy => 3
  | very_unhealthy => 4
  | hazardous => 5
  end.

(** An entry of [self.cities]. *)
Record CityConfig : Type := {
  lat : Q;
  lng : Q;
  baseline_aqi : Q;
  variance : Q;
  seasonal_factor : Q
}.

(** The object: [self.cities], in insertion order. *)
Record AQIStreamSimulator : Type := {
  cities : list (string * CityConfig)
}.

(** [__init__] *)
Definition init : AQIStreamSimulator :=
  {| cities :=
       [("Delhi", {| lat := 28.6139; lng := 77.2090; baseline_aqi := 250;
                     variance := 50; seasonal_factor := 1.3 |});
        ("Mumbai", {| lat := 19.0760; lng := 72.8777; baseline_aqi := 150;
                      variance := 40; seasonal_factor := 1.1 |});
        ("Bangalore", {| lat := 12.9716; lng := 77.5946; baseline_aqi := 120;
                         variance := 30; seasonal_factor := 1.05 |});
        ("Chennai", {| lat := 13.0827; lng := 80.2707; baseline_aqi := 110;
                       variance := 35; seasonal_factor := 1.1 |});
        ("Kolkata", {| lat := 22.5726; lng := 88.3639; baseline_aqi := 180;
                       variance := 45; seasonal_factor := 1.2 |});
        ("Hyderabad", {| lat := 17.3850; lng := 78.4867; baseline_aqi := 130;
                         variance := 35; seasonal_factor := 1.05 |});
        ("Pune", {| lat := 18.5204; lng := 73.8567; baseline_aqi := 140;
                    variance := 38; seasonal_factor := 1.1 |});
        ("Ahmedabad", {| lat := 23.0225; lng := 72.5714; baseline_aqi := 160;
                         variance := 42; seasonal_factor := 1.15 |});
        ("Lucknow", {| lat := 26.8467; lng := 80.9462; baseline_aqi := 200;
                       variance := 48; seasonal_factor := 1.25 |});
        ("Jaipur", {| lat := 26.9124; lng := 75.7873; baseline_aqi := 170;
                      variance := 40; seasonal_factor := 1.2 |})] |}.

(** [self.cities[city]], [None] when [city not in self.cities]. *)
Fixpoint lookup_city (l : list (string * CityConfig)) (city : string)
  : option CityConfig :=
  match l with
  | [] => None
  | (name, cfg) :: l' =>
      if decide (name = city) then Some cfg else lookup_city l' city
  end.

(** A point of [get_history]. *)
Record HistoryPoint : Type := {
  hp_time : string;
  hp_aqi : Z
}.

(** An item of [get_all_cities]. *)
Record CityAQI : Type := {
  ca_name : string;
  ca_lat : Q;
  ca_lng : Q;
  ca_aqi : Z;
  ca_severity : Severity
}.

(** [random.gauss(mu, sigma)]: [mu + z * sigma] for the next standard
    normal deviate [z]. *)
Definition gauss (mu sigma : Q) (s : source) : Q * source :=
  let '(z, s) := next_normal s in ((mu + z * sigma)%Q, s).

(** A [for] loop whose body appends one item to a list, the generator
    going from one iteration to the next. *)
Fixpoint for_each {X A : Type} (xs : list X)
    (body : X -> source -> A * source) (s : source) : list A * source :=
  match xs with
  | [] => ([], s)
  | x :: xs' =>
      let '(a, s) := body x s in
      let '(l, s) := for_each xs' body s in
      (a :: l, s)
  end.

(** [_get_severity] *)
Definition _get_severity (aqi : Q) : Severity :=
  if Float.leb aqi 50 then good
  else if Float.leb aqi 100 then moderate
  else if Float.leb aqi 150 then unhealthy_sensitive
  else if Float.leb aqi 200 then unhealthy
  else if Float.leb aqi 300 then very_unhealthy
  else hazardous.

Section Simulator.

(** [math.exp], at the values of floats. *)
Variable exp : Q -> Q.

(** [_calculate_realistic_aqi] *)
Definition _calculate_realistic_aqi (city_data : CityConfig)
    (timestamp : datetime) (s : source) : Q * source :=
  let baseline := baseline_aqi city_data in
  let variance := variance city_data in
  let seasonal_factor := seasonal_factor city_data in
  let hour := inject_Z (hour timestamp) in
  let day_of_week := weekday timestamp in
  let morning_peak := (exp (- ((hour - 9) ^ 2) / 8) * 30)%Q in
  let evening_peak := (exp (- ((hour - 20) ^ 2) / 8) * 35)%Q in
  let diurnal_factor := (morning_peak + evening_peak)%Q in
  let weekend_factor := if decide (day_of_week = 6%Z) then 0.8%Q else 1.0%Q in
  let '(noise, s) := gauss 0 (variance * 0.3) s in
  let aqi :=
    (baseline * seasonal_factor * weekend_factor + diurnal_factor + noise)%Q in
  (Float.max 0 (Float.min 500 aqi), s).

(** [get_history], at the time [current_time] ([datetime.now()]). *)
Definition get_history (self : AQIStreamSimulator) (current_time : datetime)
    (city time_range : string) (s : source)
  : result (list HistoryPoint) * source :=
  match lookup_city (cities self) city with
  | None => (ValueError ("City '" ++ city ++ "' not found"), s)
  | Some city_data =>
      if decide (time_range = "24h") then
        let '(data_points, s) :=
          for_each (range_down 24 (-1))
            (fun hours_ago s =>
               let timestamp := minus_hours current_time hours_ago in
               let '(aqi, s) := _calculate_realistic_aqi city_data timestamp s in
               ({| hp_time := strftime_HM timestamp;
                   hp_aqi := Float.to_int aqi |}, s)) s in
        (Returns data_points, s)
      else if decide (time_range = "7d") then
        let '(data_points, s) :=
          for_each (range_down 7 (-1))
            (fun days_ago s =>
               let timestamp := minus_days current_time days_ago in
               let noon_time := replace_noon timestamp in
               let '(aqi, s) := _calculate_realistic_aqi city_data noon_time s in
               ({| hp_time := strftime_bd timestamp;
                   hp_aqi := Float.to_int aqi |}, s)) s in
        (Returns data_points, s)
      else
        (ValueError ("Invalid time range: " ++ time_range
                     ++ ". Use '24h' or '7d'"), s)
  end.

(** [get_all_cities], at the time [current_time]. *)
Definition get_all_cities (self : AQIStreamSimulator)
    (current_time : datetime) (s : source) : list CityAQI * source :=
  let '(cities_data, s) :=
    for_each (cities self)
      (fun '(city_name, city_config) s =>
         let '(aqi, s) :=
           _calculate_realistic_aqi city_config current_time s in
         let severity := _get_severity aqi in
         ({| ca_name := city_name;
             ca_lat := lat city_config;
             ca_lng := lng city_config;
             ca_aqi := Float.to_int aqi;
             ca_severity := severity |}, s)) s in
  (sort_reverse ca_aqi cities_data, s).

End Simulator.

End Stream.


(** ** Sample data *)

Module Examples.

Import Processor.

(** The report submitted by [test_report_submission] in [test_api.py]. *)
Definition construction_report : ReportData :=
  {| rd_category := "construction";
     rd_latitude := 28.6139;
     rd_longitude := 77.2090;
     rd_location_name := "Connaught Place, Delhi";
     rd_yolo_result :=
       Some {| detected_category := Some "construction";
               confidence := Some 0.87%Q |};
     rd_timestamp := "2026-02-16T10:30:00" |}.

Definition construction_id : string := "RPT-20260216103000-3f2a9c1e".

(** Draws under which the submission above takes the verified path
    ([random.random()] gives 0.1, the pick is index 0), the location is
    no hotspot (0.9), the first reward gets the random bonus (0.1) and
    the second does not (0.9). *)
Definition draws : source :=
  of_lists [0.1; 0.9; 0.1; 0.9]%Q [0; 4; 1]%nat [].

(** The processor after that submission: one report, under validation. *)
Definition submitted : ReportProcessor * SubmissionResponse * source :=
  run (process_submission "20260216103000"
         "3f2a9c1e-7d4b-4c58-9a61-0b2e5d8f4a37" init construction_report)
      draws.

(** The first poll of the report, which verifies it. *)
Definition first_poll : ReportProcessor * result StatusResponse * source :=
  run (get_status "2026-02-16T10:30:05" submitted.1.1 construction_id)
      submitted.2.

(** The record of the report after the first poll. *)
Definition verified_report : Report :=
  {| report_id := construction_id;
     category := "construction";
     latitude := 28.6139;
     longitude := 77.2090;
     location_name := "Connaught Place, Delhi";
     yolo_result :=
       Some {| detected_category := Some "construction";
               confidence := Some 0.87%Q |};
     submitted_at := "2026-02-16T10:30:00";
     validation_status := verified;
     validation_reason :=
       "High AI confidence. Visual indicators strongly match reported category.";
     confidence_score := 0.87;
     verified_at := Some "2026-02-16T10:30:05";
     reward_coins := 25 |}.

(** A second poll, of the report now verified. *)
Definition second_poll : ReportProcessor * result StatusResponse * source :=
  run (get_status "2026-02-16T10:30:09" first_poll.1.1 construction_id)
      first_poll.2.

(** Status, reward and verification timestamp of a response. *)
Definition summary (res : result StatusResponse)
  : option (ValidationStatus * Z * option string) :=
  match res with
  | Returns resp =>
      Some (st_status resp, st_reward_coins resp, st_verified_at resp)
  | ValueError _ => None
  end.

(** Reward and verification timestamp stored for the report. *)
Definition stored (self : ReportProcessor) : option (Z * option string) :=
  (fun r => (reward_coins r, verified_at r)) <$> reports self !! construction_id.

(** A report under validation with a medium confidence. *)
Definition pending_report : Report :=
  {| report_id := "RPT-20260216111500-a41c07de";
     category := "air";
     latitude := 19.0760;
     longitude := 72.8777;
     location_name := "Bandra, Mumbai";
     yolo_result := None;
     submitted_at := "2026-02-16T11:15:00";
     validation_status := validating;
     validation_reason :=
       "Moderate AI confidence. Requires additional verification for accuracy.";
     confidence_score := 0.6;
     verified_at := None;
     reward_coins := 0 |}.

Definition pending_processor : ReportProcessor :=
  {| reports := {[ "RPT-20260216111500-a41c07de" := pending_report ]};
     validation_queue := [] |}.

(** The first entry of the city table. *)
Definition delhi : Stream.CityConfig :=
  {| Stream.lat := 28.6139; Stream.lng := 77.2090;
     Stream.baseline_aqi := 250; Stream.variance := 50;
     Stream.seasonal_factor := 1.3 |}.

(** 2026-02-16T10:30:00, a Monday. *)
Definition monday_morning : Datetime.datetime := 1771237800%Z.

(** A rational stand-in for [math.exp] on arguments that are not
    positive. *)
Definition exp_approx (x : Q) : Q := (1 / (1 - x + x * x / 2))%Q.

(** A generator whose normal deviates are the given ones, then 0. *)
Definition noise : source :=
  of_lists [] [] [1; -2; 0.5; 30; -30; 0; 0; 0.1; 0.1]%Q.

End Examples.


(** ** More built-ins on numbers *)

Module Rounding.

(** [round(x, 1)] *)
Definition round1 (x : Q) : Q := (Float.round_half_even (x * 10) # 10)%Q.

(** [random.uniform(a, b)]: [a + (b - a) * random.random()]. *)
Definition uniform (a b : Q) (s : source) : Q * source :=
  let '(u, s) := next_uniform s in ((a + (b - a) * u)%Q, s).

End Rounding.

(** ** reports/processor.py: analytics helpers *)

Module Analytics.

Import Processor Rounding.

(** What [get_report_stats] returns: [{"total": 0}], or the dictionary
    with the six keys. *)
Inductive Stats : Type :=
| NoReports
| ReportStats (total verified pending rejected : Z)
    (verification_rate : Q) (categories : gmap string Z).

(** [sum(1 for r in values if r["validation_status"] == st)] *)
Definition count_status (st : ValidationStatus) (values : list Report) : Z :=
  Z.of_nat (length (filter (fun r => validation_status r = st) values)).

(** The loop [categories[cat] = categories.get(cat, 0) + 1]. *)
Definition count_categories (values : list Report) : gmap string Z :=
  foldl (fun categories report =>
           let cat := category report in
           <[cat := (default 0 (categories !! cat) + 1)%Z]> categories)
        ∅ values.

(** [get_report_stats].  The counts and the category table do not
    depend on the order in which [self.reports.values()] comes. *)
Definition get_report_stats (self : ReportProcessor) : Stats :=
  let total := Z.of_nat (size (reports self)) in
  if decide (total = 0%Z) then NoReports
  else
    let values := (map_to_list (reports self)).*2 in
    let verified := count_status verified values in
    let pending := count_status needs_review values in
    let rejected := count_status rejected values in
    let categories := count_categories values in
    ReportStats total verified pending rejected
      (if decide (0 < total)%Z
       then round1 (inject_Z verified / inject_Z total * 100)
       else 0%Q)
      categories.

End Analytics.

(** ** More sample data *)

Module MoreExamples.

Import Processor Examples.

(** Draws under which the sample submission fails the 70% test and goes
    to review. *)
Definition review_draws : source := of_lists [0.9; 0.9]%Q [3]%nat [].

(** The processor after that submission: one report, queued for
    review. *)
Definition queued : ReportProcessor * SubmissionResponse * source :=
  run (process_submission "20260216120000"
         "77aa10c4-52e1-4b0e-8f6d-3c9a7e215b90" init construction_report)
      review_draws.

Definition queued_id : string := "RPT-20260216120000-77aa10c4".



(** A submission without detection result. *)
Definition bare_report : ReportData :=
  {| rd_category := "water";
     rd_latitude := 13.0827;
     rd_longitude := 80.2707;
     rd_location_name := "Adyar, Chennai";
     rd_yolo_result := None;
     rd_timestamp := "2026-02-16T12:00:00" |}.

End MoreExamples.

(** ** aqi/stream.py: readings and insights *)

Module Readings.

Import Datetime Builtins Stream Rounding.

(** [_aqi_to_pm25] *)
Definition _aqi_to_pm25 (aqi : Q) : Q :=
  if Float.leb aqi 50 then (aqi * 0.24)%Q
  else if Float.leb aqi 100 then (12 + (aqi - 50) * 0.56)%Q
  else if Float.leb aqi 150 then (35.5 + (aqi - 100) * 0.65)%Q
  else if Float.leb aqi 200 then (55.5 + (aqi - 150) * 0.99)%Q
  else if Float.leb aqi 300 then (150.5 + (aqi - 200) * 0.99)%Q
  else (250.5 + (aqi - 300) * 1.0)%Q.

(** [_aqi_to_pm10] *)
Definition _aqi_to_pm10 (aqi : Q) (s : source) : Q * source :=
  let pm25 := _aqi_to_pm25 aqi in
  let '(m, s) := uniform 1.5 2.0 s in
  ((pm25 * m)%Q, s).

(** [_get_description] *)
Definition _get_description (aqi : Q) : string :=
  if Float.leb aqi 50 then
    "Air quality is satisfactory, and air pollution poses little or no risk."
  else if Float.leb aqi 100 then
    "Air quality is acceptable. However, there may be a risk for some people."
  else if Float.leb aqi 150 then
    "Members of sensitive groups may experience health effects."
  else if Float.leb aqi 200 then
    "Everyone may begin to experience health effects; sensitive groups at greater risk."
  else if Float.leb aqi 300 then
    "Health alert: everyone may experience serious health effects."
  else "Health warning of emergency conditions: everyone affected.".

(** The dictionary returned by [get_current]. *)
Record AQIReading : Type := {
  r_city : string;
  r_aqi : Z;
  r_pm25 : Q;
  r_pm10 : Q;
  r_timestamp : string;
  r_severity : Severity;
  r_description : string
}.

(** The two values of [trend]. *)
Inductive Trend : Type :=
| increasing
| decreasing.

Definition trend_label (t : Trend) : string :=
  match t with
  | increasing => "increasing"
  | decreasing => "decreasing"
  end.

(** The dictionary returned by [get_insights]. *)
Record Insights : Type := {
  i_city : string;
  i_insight : string;
  i_trend : Trend;
  i_rank : nat;
  i_total_cities : nat;
  i_avg_24h : Q
}.

(** What a call of [get_insights] gives back: its value, the
    [ValueError] it raises, the [IndexError] of [aqi_values[-1]] on an
    empty list, or the [StopIteration] of [next] on a generator with no
    item. *)
Inductive insights_result : Type :=
| InsightsReturns (i : Insights)
| InsightsValueError (msg : string)
| InsightsIndexError
| InsightsStopIteration.

(** [next(i for i, c in enumerate(all_cities, start) if c["name"] == city)],
    [None] when no item has the name. *)
Fixpoint find_rank (all_cities : list CityAQI) (city : string) (start : nat)
  : option nat :=
  match all_cities with
  | [] => None
  | c :: rest =>
      if decide (ca_name c = city) then Some start
      else find_rank rest city (S start)
  end.

(** [sum(values)] *)
Definition sum (values : list Z) : Z := fold_left Z.add values 0%Z.

(** [_generate_insight_text], at the hour [hour] of [datetime.now()]. *)
Definition _generate_insight_text (hour : Z) (city : string)
    (current_aqi : Z) (severity : Severity) (trend : Trend) (avg_24h : Q)
    (rank total : nat) : string :=
  let severity_phrase :=
    match severity with
    | good => "enjoying good air quality"
    | moderate => "experiencing moderate air quality"
    | unhealthy_sensitive =>
        "facing unhealthy conditions for sensitive groups"
    | unhealthy => "experiencing unhealthy air quality"
    | very_unhealthy => "dealing with very unhealthy air conditions"
    | hazardous => "facing hazardous air quality"
    end in
  let trend_phrase :=
    match trend with
    | increasing => "worsening over the past 24 hours"
    | decreasing => "improving over the past 24 hours"
    end in
  let insight := city ++ " is currently " ++ severity_phrase ++ " " in
  let insight :=
    insight ++ "with an AQI of " ++ pretty current_aqi ++ ", "
    ++ trend_phrase ++ ". " in
  let insight :=
    insight ++ "The 24-hour average stands at "
    ++ pretty (Float.round_half_even avg_24h) ++ ". " in
  let insight :=
    if decide (rank <= 3)%nat then
      insight ++ "⚠️ " ++ city ++ " ranks #" ++ pretty rank ++ " among the "
      ++ pretty total ++ " monitored cities for poorest air quality. "
    else if decide (Z.of_nat total - 3 < Z.of_nat rank)%Z then
      insight ++ "✓ " ++ city ++ " ranks #" ++ pretty rank ++ " among the "
      ++ pretty total
      ++ " monitored cities, showing relatively better conditions. "
    else insight in
  if decide ((7 <= hour <= 10)%Z \/ (18 <= hour <= 21)%Z) then
    insight ++ "Traffic-hour peaks are typical during this time. "
  else insight.

Section Simulator.

(** [math.exp] and [datetime.isoformat]. *)
Variable exp : Q -> Q.
Variable isoformat : datetime -> string.

(** [get_current], at the time [current_time]. *)
Definition get_current (self : AQIStreamSimulator) (current_time : datetime)
    (city : string) (s : source) : result AQIReading * source :=
  match lookup_city (cities self) city with
  | None =>
      (ValueError ("City '" ++ city ++ "' not found. Available cities: "
                   ++ String.concat ", " (map fst (cities self))), s)
  | Some city_data =>
      let '(aqi, s) := _calculate_realistic_aqi exp city_data current_time s in
      let pm25 := _aqi_to_pm25 aqi in
      let '(pm10, s) := _aqi_to_pm10 aqi s in
      let severity := _get_severity aqi in
      let description := _get_description aqi in
      (Returns {| r_city := city;
                  r_aqi := Float.to_int aqi;
                  r_pm25 := round1 pm25;
                  r_pm10 := round1 pm10;
                  r_timestamp := isoformat current_time;
                  r_severity := severity;
                  r_description := description |}, s)
  end.

(** [get_insights].  Each of the calls it makes reads the clock for
    itself: [t_current], [t_history] and [t_cities] are the times read by
    [get_current], [get_history] and [get_all_cities], and [t_text] the
    time read by [_generate_insight_text]. *)
Definition get_insights (self : AQIStreamSimulator)
    (t_current t_history t_cities t_text : datetime) (city : string)
    (s : source) : insights_result * source :=
  match lookup_city (cities self) city with
  | None => (InsightsValueError ("City '" ++ city ++ "' not found"), s)
  | Some _ =>
      match get_current self t_current city s with
      | (ValueError msg, s) => (InsightsValueError msg, s)
      | (Returns current, s) =>
          match get_history exp self t_history city "24h" s with
          | (ValueError msg, s) => (InsightsValueError msg, s)
          | (Returns history_24h, s) =>
              let aqi_values := map hp_aqi history_24h in
              match aqi_values with
              | [] => (InsightsIndexError, s)
              | first :: _ =>
                  let trend :=
                    if (first <? List.last aqi_values 0%Z)%Z
                    then increasing else decreasing in
                  let avg_24h :=
                    (inject_Z (sum aqi_values)
                     / inject_Z (Z.of_nat (length aqi_values)))%Q in
                  let '(all_cities, s) :=
                    get_all_cities exp self t_cities s in
                  match find_rank all_cities city 1 with
                  | None => (InsightsStopIteration, s)
                  | Some rank =>
                      let insight_text :=
                        _generate_insight_text (hour t_text) city
                          (r_aqi current) (r_severity current) trend avg_24h
                          rank (length all_cities) in
                      (InsightsReturns
                         {| i_city := city;
                            i_insight := insight_text;
                            i_trend := trend;
                            i_rank := rank;
                            i_total_cities := length all_cities;
                            i_avg_24h := round1 avg_24h |}, s)
                  end
              end
          end
      end
  end.

End Simulator.

End Readings.

(** ** yolo/detector.py *)

Module Detector.

Import Rounding.



(** [random.sample(population, k)] for [k] at most the length of a
    population short enough for CPython to draw from a copy of it: the
    item at a drawn position below [n] is taken and the last of the [n]
    first items is moved to its place. *)
Fixpoint sample_loop (pool : list string) (n k : nat) (s : source)
  : list string * source :=
  match k with
  | O => ([], s)
  | S k' =>
      let '(r, s) := next_integer s in
      let j := (r mod n)%nat in
      let x := nth j pool "" in
      let pool := <[j := nth (n - 1) pool ""]> pool in
      let '(result, s) := sample_loop pool (n - 1) k' s in
      (x :: result, s)
  end.

Definition sample (population : list string) (k : nat) (s : source)
  : list string * source :=
  sample_loop population (length population) k s.

(** [object_pools.get(category, [])] *)
Definition object_pool (category : string) : list string :=
  if decide (category = "air") then
    ["vehicle"; "truck"; "car"; "motorcycle"; "smoke"; "traffic"]
  else if decide (category = "garbage") then
    ["plastic_bag"; "bottle"; "trash_pile"; "waste_container"; "litter"]
  else if decide (category = "construction") then
    ["construction_equipment"; "dust_cloud"; "building"; "crane";
     "excavation"]
  else if decide (category = "water") then
    ["water_body"; "sewage"; "drain"; "algae_growth"; "contamination"]
  else [].

(** [_generate_detected_objects] *)
Definition _generate_detected_objects (category : string) (confidence : Q)
    (s : source) : list string * source :=
  let pool := object_pool category in
  let num_objects :=
    if Float.ltb confidence 0.5 then 2%nat
    else if Float.ltb confidence 0.7 then 3%nat else 4%nat in
  sample pool (Nat.min num_objects (length pool)) s.



End Detector.

(** ** Sample detection *)

Module DetectorExamples.

Import Processor Detector.



End DetectorExamples.


(** * Properties *)

(** ** Float comparisons *)

Module FloatFacts.

Lemma leb_le (x y : Q) : Float.leb x y = true <-> (x <= y)%Q.
Proof. apply Qle_bool_iff. Qed.

Lemma leb_gt (x y : Q) : Float.leb x y = false <-> (y < x)%Q.
Proof.
  unfold Float.leb. rewrite <- not_true_iff_false, Qle_bool_iff.
  split; [apply Qnot_le_lt | apply Qlt_not_le].
Qed.

Lemma ltb_lt (x y : Q) : Float.ltb x y = true <-> (x < y)%Q.
Proof. unfold Float.ltb. rewrite negb_true_iff. apply leb_gt. Qed.

Lemma ltb_ge (x y : Q) : Float.ltb x y = false <-> (y <= x)%Q.
Proof. unfold Float.ltb. rewrite negb_false_iff. apply leb_le. Qed.

Lemma geb_ge (x y : Q) : Float.geb x y = true <-> (y <= x)%Q.
Proof. apply leb_le. Qed.

Lemma geb_lt (x y : Q) : Float.geb x y = false <-> (x < y)%Q.
Proof. apply leb_gt. Qed.

Lemma gtb_gt (x y : Q) : Float.gtb x y = true <-> (y < x)%Q.
Proof. apply ltb_lt. Qed.


(** [min(hi, x)] is at most [hi], and [max(lo, _)] at least [lo]. *)
Lemma min_le_l (hi x : Q) : (Float.min hi x <= hi)%Q.
Proof.
  unfold Float.min. destruct (Float.ltb x hi) eqn:E.
  - apply ltb_lt in E. apply Qlt_le_weak, E.
  - apply Qle_refl.
Qed.

Lemma max_ge_l (lo x : Q) : (lo <= Float.max lo x)%Q.
Proof.
  unfold Float.max. destruct (Float.gtb x lo) eqn:E.
  - apply gtb_gt in E. apply Qlt_le_weak, E.
  - apply Qle_refl.
Qed.

Lemma max_le (lo x hi : Q) : (lo <= hi)%Q -> (x <= hi)%Q -> (Float.max lo x <= hi)%Q.
Proof. intros Hlo Hx. unfold Float.max. destruct (Float.gtb x lo); assumption. Qed.

End FloatFacts.

(** ** Running randomized code *)

Module RandomFacts.

Lemma run_bind {A B : Type} (f : A -> rand B) (t : rand A) (s : source) :
  run (t ≫= f) s = run (f (run t s).1) (run t s).2.
Proof.
  revert s. induction t as [a | p k IH | n k IH]; intros s; cbn.
  - reflexivity.
  - apply IH.
  - apply IH.
Qed.

Lemma run_ret {A : Type} (a : A) (s : source) : run (mret a) s = (a, s).
Proof. reflexivity. Qed.

Lemma run_random_lt (p : Q) (s : source) :
  run (random_lt p) s = (Float.ltb (uniforms s 0%nat) p, (next_uniform s).2).
Proof. reflexivity. Qed.

Lemma run_choice2 {A : Type} (x y : A) (s : source) :
  run (choice x [y]) s
  = (if Nat.even (integers s 0%nat) then x else y, (next_integer s).2).
Proof.
  change (run (choice x [y]) s)
    with (nth (integers s 0%nat mod 2) [x; y] x, (next_integer s).2).
  rewrite <- Nat.bit0_mod, Nat.bit0_odd, <- Nat.negb_even.
  destruct (Nat.even (integers s 0%nat)); reflexivity.
Qed.

Lemma always_run {A : Type} (P : A -> Prop) (t : rand A) :
  always P t -> forall s, P (run t s).1.
Proof.
  induction t as [a | p k IH | n k IH]; cbn; intros H s.
  - exact H.
  - destruct H as [Ht Hf]. destruct (Float.ltb _ _); auto.
  - apply IH, H.
Qed.

Lemma always_bind {A B : Type} (P : A -> Prop) (R : B -> Prop)
    (f : A -> rand B) (t : rand A) :
  always P t -> (forall a, P a -> always R (f a)) -> always R (t ≫= f).
Proof.
  intros Ht Hf. induction t as [a | p k IH | n k IH]; cbn in *.
  - auto.
  - destruct Ht. split; apply IH; assumption.
  - intros i. apply IH, Ht.
Qed.

End RandomFacts.

(** ** The report processor *)

Module ProcessorFacts.

Import Processor RandomFacts FloatFacts.

Lemma decision_never_verified (category : string) (c : Q) (loc : Q * Q) :
  always (fun d => d_status d <> verified)
    (_make_validation_decision category c loc).
Proof.
  unfold _make_validation_decision. destruct loc as [lat lng].
  destruct (Float.geb c threshold_high);
    [| destruct (Float.geb c threshold_medium)]; cbn;
    repeat first [split | intros ?]; case_decide; congruence.
Qed.

(** The record written by a submission, and the state it leaves. *)
Lemma process_submission_run (timestamp uuid4 : string)
    (self : ReportProcessor) (report_data : ReportData) (s : source) :
  exists (d : Decision) (queue : list string) (time : Z) (s' : source),
    d_status d <> verified /\
    run (process_submission timestamp uuid4 self report_data) s
    = ({| reports :=
            <[_generate_report_id timestamp uuid4 :=
                {| report_id := _generate_report_id timestamp uuid4;
                   category := rd_category report_data;
                   latitude := rd_latitude report_data;
                   longitude := rd_longitude report_data;
                   location_name := rd_location_name report_data;
                   yolo_result := rd_yolo_result report_data;
                   submitted_at := rd_timestamp report_data;
                   validation_status := d_status d;
                   validation_reason := d_reason d;
                   confidence_score := d_confidence d;
                   verified_at := None;
                   reward_coins := 0 |}]> (reports self);
          validation_queue := queue |},
       {| sr_report_id := _generate_report_id timestamp uuid4;
          sr_status := "submitted";
          sr_validation_status := d_status d;
          sr_estimated_verification_time := time;
          sr_message := _get_status_message (d_status d) |},
       s').
Proof.
  unfold process_submission. rewrite run_bind.
  match goal with
  | |- context [run (_make_validation_decision ?c ?y ?l) s] =>
      pose proof (always_run _ _ (decision_never_verified c y l) s) as Hd;
      destruct (run (_make_validation_decision c y l) s) as [d s1]
  end.
  cbn [fst snd] in *. rewrite run_bind.
  destruct (run (_estimate_verification_time (d_status d)) s1) as [time s2].
  cbn [fst snd]. rewrite run_ret.
  exists d. case_decide; eexists _, time, s2; (split; [exact Hd | reflexivity]).
Qed.

Lemma simulate_never_validating (report : Report) :
  always (fun st => st <> validating) (_simulate_validation_completion report).
Proof.
  unfold _simulate_validation_completion.
  destruct (Float.geb _ 0.75); [| destruct (Float.geb _ 0.50)]; cbn.
  - discriminate.
  - intros i; do 3 (destruct i as [ | i]; [discriminate | ]); discriminate.
  - intros i; do 3 (destruct i as [ | i]; [discriminate | ]); discriminate.
Qed.

(** Polling a report under validation: the outcome is drawn, written
    to the record, and the call goes on as on the resolved record. *)
Lemma get_status_validating (now : string) (self : ReportProcessor)
    (rid : string) (report : Report) (s : source) :
  reports self !! rid = Some report ->
  validation_status report = validating ->
  run (get_status now self rid) s
  = run (get_status now
           (store self rid
              (set_validation_status report
                 (run (_simulate_validation_completion report) s).1)) rid)
        (run (_simulate_validation_completion report) s).2.
Proof.
  intros Hl Hv.
  pose proof (always_run _ _ (simulate_never_validating report) s) as Hst.
  unfold get_status. cbn [reports store]. rewrite Hl, lookup_insert_eq, Hv.
  destruct (decide (validating = validating)) as [_ | ?]; [| done].
  cbn [validation_status set_validation_status].
  destruct (decide ((run (_simulate_validation_completion report) s).1
                    = validating)) as [? | _]; [done |].
  rewrite run_bind, run_bind. reflexivity.
Qed.

(** Polling a report that is [needs-review] or [rejected]. *)
Lemma get_status_settled (now : string) (self : ReportProcessor)
    (rid : string) (report : Report) (s : source) :
  reports self !! rid = Some report ->
  validation_status report <> validating ->
  validation_status report <> verified ->
  run (get_status now self rid) s
  = (self,
     Returns
       {| st_report_id := rid;
          st_status := validation_status report;
          st_category := category report;
          st_location := location_name report;
          st_submitted_at := submitted_at report;
          st_verified_at := verified_at report;
          st_confidence_score := confidence_score report;
          st_validation_reason := validation_reason report;
          st_reward_coins := 0;
          st_message := _get_status_message (validation_status report) |},
     s).
Proof.
  intros Hl Hv Hw. unfold get_status. rewrite Hl.
  destruct (decide (validation_status report = validating)); [done |].
  cbn. destruct (decide (validation_status report = verified)); [done |].
  reflexivity.
Qed.

Lemma calculate_reward_run (report : Report) (s : source) :
  run (_calculate_reward report) s
  = ((reward_before_bonus report
      + (if Float.ltb (uniforms s 0%nat) 0.3 then 5 else 0))%Z,
     (next_uniform s).2).
Proof. reflexivity. Qed.

(** Polling a report that is [verified]. *)
Lemma get_status_verified (now : string) (self : ReportProcessor)
    (rid : string) (report : Report) (s : source) :
  reports self !! rid = Some report ->
  validation_status report = verified ->
  let reward := (run (_calculate_reward report) s).1 in
  run (get_status now self rid) s
  = ({| reports :=
          <[rid := set_verified_at (set_reward_coins report reward) now]>
            (reports self);
        validation_queue := validation_queue self |},
     Returns
       {| st_report_id := rid;
          st_status := verified;
          st_category := category report;
          st_location := location_name report;
          st_submitted_at := submitted_at report;
          st_verified_at := Some now;
          st_confidence_score := confidence_score report;
          st_validation_reason := validation_reason report;
          st_reward_coins := reward;
          st_message := _get_status_message verified |},
     (next_uniform s).2).
Proof.
  intros Hl Hv reward. unfold get_status. rewrite Hl, Hv.
  destruct (decide (verified = validating)); [done |].
  rewrite run_bind, run_ret. cbn [fst snd].
  destruct (decide (verified = verified)) as [_ | ?]; [| done].
  rewrite run_bind, run_bind. unfold store. cbn [fst snd reports validation_queue].
  rewrite insert_insert_eq. reflexivity.
Qed.

(** A poll of a stored report returns. *)
Lemma get_status_returns (now : string) (self : ReportProcessor)
    (rid : string) (report : Report) (s : source) :
  reports self !! rid = Some report ->
  exists self' resp s',
    run (get_status now self rid) s = (self', Returns resp, s').
Proof.
  intros Hl.
  assert (Hres : forall self0 report0 s0,
             reports self0 !! rid = Some report0 ->
             validation_status report0 <> validating ->
             exists self' resp s',
               run (get_status now self0 rid) s0 = (self', Returns resp, s')).
  { intros self0 report0 s0 Hl0 Hv0.
    destruct (decide (validation_status report0 = verified)) as [Hw | Hw].
    - rewrite (get_status_verified _ _ _ _ _ Hl0 Hw). eauto.
    - rewrite (get_status_settled _ _ _ _ _ Hl0 Hv0 Hw). eauto. }
  destruct (decide (validation_status report = validating)) as [Hv | Hv].
  - rewrite (get_status_validating _ _ _ _ _ Hl Hv).
    eapply Hres.
    + unfold store. cbn [reports]. apply lookup_insert_eq.
    + apply (always_run _ _ (simulate_never_validating report) s).
  - eapply Hres; eassumption.
Qed.

(** C10.  Whatever is drawn, the record a submission stores has the
    status [validating], [needs-review] or [rejected], never [verified];
    it is the status reported in the response; and the submission makes
    no record of the collection verified. *)
Theorem process_submission_never_verified (timestamp uuid4 : string)
    (self : ReportProcessor) (report_data : ReportData) (s : source) :
  exists self' resp s' report,
    run (process_submission timestamp uuid4 self report_data) s
    = (self', resp, s') /\
    reports self' !! sr_report_id resp = Some report /\
    validation_status report = sr_validation_status resp /\
    validation_status report ∈ [validating; needs_review; rejected] /\
    validation_status report <> verified /\
    (forall rid r,
        reports self' !! rid = Some r -> validation_status r = verified ->
        reports self !! rid = Some r).
Proof.
  destruct (process_submission_run timestamp uuid4 self report_data s)
    as (d & queue & time & s' & Hd & Hrun).
  rewrite Hrun. eexists _, _, _, _. split; [reflexivity |].
  cbn [reports sr_report_id sr_validation_status].
  split; [apply lookup_insert_eq |]. cbn [validation_status].
  split; [reflexivity |].
  split; [destruct (d_status d); try done; set_solver |].
  split; [exact Hd |].
  intros rid r Hr Hv.
  destruct (decide (_generate_report_id timestamp uuid4 = rid)) as [Heq | Hne].
  - rewrite <- Heq, lookup_insert_eq in Hr. injection Hr as <-. done.
  - rewrite lookup_insert_ne in Hr by done. exact Hr.
Qed.

(** C5.  The identifier returned by a submission is a key of the
    collection when the submission returns, and the poll of that
    identifier that follows returns a status; a poll raises exactly when
    the identifier is not a key of the collection. *)
Theorem submitted_report_is_found (timestamp uuid4 now : string)
    (self : ReportProcessor) (report_data : ReportData) (s : source) :
  (exists self1 resp s1,
      run (process_submission timestamp uuid4 self report_data) s
      = (self1, resp, s1) /\
      is_Some (reports self1 !! sr_report_id resp) /\
      exists self2 st s2,
        run (get_status now self1 (sr_report_id resp)) s1
        = (self2, Returns st, s2)) /\
  (forall self0 rid s0,
      (exists msg, (run (get_status now self0 rid) s0).1.2 = ValueError msg)
      <-> reports self0 !! rid = None).
Proof.
  split.
  - destruct (process_submission_run timestamp uuid4 self report_data s)
      as (d & queue & time & s' & Hd & Hrun).
    rewrite Hrun. eexists _, _, _. split; [reflexivity |].
    cbn [reports sr_report_id]. split.
    + rewrite lookup_insert_eq. eauto.
    + eapply get_status_returns. cbn [reports]. apply lookup_insert_eq.
  - intros self0 rid s0. split.
    + intros [msg Hmsg]. destruct (reports self0 !! rid) as [r |] eqn:Hl; [| done].
      destruct (get_status_returns now self0 rid r s0 Hl) as (? & ? & ? & Hrun).
      rewrite Hrun in Hmsg. discriminate.
    + intros Hl. unfold get_status. rewrite Hl. cbn. eauto.
Qed.

(** C1.  A poll of a stored report under validation returns a status
    other than [validating], which is the status of the record after the
    call: [verified] when the stored confidence is at least 0.75; the
    item of [verified], [needs-review] picked by the draw, each with
    probability 1/2, when it is at least 0.50 and below 0.75; the item
    of [needs-review], [rejected] picked by the draw, each with
    probability 1/2, when it is below 0.50. *)
Theorem get_status_resolves_validating (now : string)
    (self : ReportProcessor) (rid : string) (report : Report) (s : source) :
  reports self !! rid = Some report ->
  validation_status report = validating ->
  exists self' resp s' report',
    run (get_status now self rid) s = (self', Returns resp, s') /\
    reports self' !! rid = Some report' /\
    validation_status report' = st_status resp /\
    st_status resp <> validating /\
    ((0.75 <= confidence_score report)%Q -> st_status resp = verified) /\
    ((0.50 <= confidence_score report < 0.75)%Q ->
       st_status resp
       = nth (integers s 0 mod 2) [verified; needs_review] verified /\
       prob (returns_status verified) (get_status now self rid) == 1 # 2 /\
       prob (returns_status needs_review) (get_status now self rid) == 1 # 2) /\
    ((confidence_score report < 0.50)%Q ->
       st_status resp
       = nth (integers s 0 mod 2) [needs_review; rejected] needs_review /\
       prob (returns_status needs_review) (get_status now self rid) == 1 # 2 /\
       prob (returns_status rejected) (get_status now self rid) == 1 # 2).
Proof.
  intros Hl Hv.
  pose proof (always_run _ _ (simulate_never_validating report) s) as Hst.
  rewrite (get_status_validating _ _ _ _ _ Hl Hv).
  set (st := (run (_simulate_validation_completion report) s).1) in *.
  set (s1 := (run (_simulate_validation_completion report) s).2).
  set (report1 := set_validation_status report st).
  assert (Hl1 : reports (store self rid report1) !! rid = Some report1)
    by apply lookup_insert_eq.
  assert (Hres : exists self' resp s' report',
             run (get_status now (store self rid report1) rid) s1
             = (self', Returns resp, s') /\
             reports self' !! rid = Some report' /\
             validation_status report' = st_status resp /\
             st_status resp = st).
  { destruct (decide (st = verified)) as [Hw | Hw].
    - rewrite (get_status_verified _ _ _ _ _ Hl1 Hw).
      eexists _, _, _, _. split; [reflexivity |]. cbn [reports store].
      split; [apply lookup_insert_eq |]. cbn. done.
    - rewrite (get_status_settled _ _ _ _ _ Hl1 Hst Hw).
      eexists _, _, _, _. split; [reflexivity |]. split; [exact Hl1 |]. done. }
  destruct Hres as (self' & resp & s' & report' & Hrun & Hl' & Hst' & Hresp).
  exists self', resp, s', report'.
  split; [exact Hrun |]. split; [exact Hl' |]. split; [exact Hst' |].
  split; [congruence |]. rewrite Hresp. subst st.
  unfold get_status. rewrite Hl, Hv.
  unfold _simulate_validation_completion.
  split; [| split].
  - intros H75. apply geb_ge in H75. rewrite H75. reflexivity.
  - intros [H50 H75]. apply geb_ge in H50. apply geb_lt in H75.
    rewrite H75, H50. split; [reflexivity |]. split; vm_compute; reflexivity.
  - intros H50. assert (H75 : (confidence_score report < 0.75)%Q).
    { eapply Qlt_trans; [exact H50 | reflexivity]. }
    apply geb_lt in H50. apply geb_lt in H75.
    rewrite H75, H50. split; [reflexivity |]. split; vm_compute; reflexivity.
Qed.

Lemma calculate_reward_prob (report : Report) :
  prob (Z.eqb (reward_before_bonus report + 5)) (_calculate_reward report)
  == 0.3 /\
  prob (Z.eqb (reward_before_bonus report)) (_calculate_reward report)
  == 0.7.
Proof.
  unfold _calculate_reward. fold (reward_before_bonus report).
  generalize (reward_before_bonus report). intros B. cbn.
  rewrite Z.add_0_r, !Z.eqb_refl.
  replace (B + 5 =? B)%Z with false by (symmetry; apply Z.eqb_neq; lia).
  replace (B =? B + 5)%Z with false by (symmetry; apply Z.eqb_neq; lia).
  split; reflexivity.
Qed.

Lemma reward_before_bonus_ge (report : Report) :
  (10 <= reward_before_bonus report)%Z.
Proof.
  unfold reward_before_bonus.
  destruct (Float.geb _ _); destruct (bool_decide _); lia.
Qed.

Lemma get_status_missing (now : string) (self : ReportProcessor)
    (rid : string) (s : source) :
  reports self !! rid = None ->
  run (get_status now self rid) s
  = (self, ValueError ("Report " ++ rid ++ " not found"), s).
Proof. intros Hl. unfold get_status. rewrite Hl. reflexivity. Qed.

(** What a poll of [rid] leaves in the collection: the records it had,
    but for the record of [rid] when the poll resolves it or finds it
    verified. *)
Lemma get_status_stored (now : string) (self : ReportProcessor)
    (rid : string) (s : source) (rid' : string) (r' : Report) :
  reports (run (get_status now self rid) s).1.1 !! rid' = Some r' ->
  reports self !! rid' = Some r' \/
  (rid' = rid /\
   exists report,
     reports self !! rid = Some report /\
     ((validation_status report = validating /\
       validation_status r' <> verified /\
       reward_coins r' = reward_coins report /\
       verified_at r' = verified_at report) \/
      (validation_status r' = verified /\
       (10 <= reward_coins r')%Z /\ is_Some (verified_at r')))).
Proof.
  assert (Hres : forall self0 report0 s0,
             reports self0 !! rid = Some report0 ->
             validation_status report0 <> validating ->
             reports (run (get_status now self0 rid) s0).1.1 !! rid' = Some r' ->
             (reports self0 !! rid' = Some r' /\
              (rid' = rid -> validation_status report0 <> verified)) \/
             (rid' = rid /\ validation_status r' = verified /\
              (10 <= reward_coins r')%Z /\ is_Some (verified_at r'))).
  { intros self0 report0 s0 Hl0 Hv0.
    destruct (decide (validation_status report0 = verified)) as [Hw | Hw].
    - rewrite (get_status_verified _ _ _ _ _ Hl0 Hw). cbn [fst reports].
      destruct (decide (rid = rid')) as [<- | Hne].
      + rewrite lookup_insert_eq. intros [= Heq]. subst r'. right.
        split; [reflexivity |]. split; [exact Hw |]. split; [| cbn; eauto].
        cbn [reward_coins set_verified_at set_reward_coins].
        repeat case_match; lia.
      + rewrite lookup_insert_ne by done. intros Hr. left. split; [exact Hr |].
        intros ->. done.
    - rewrite (get_status_settled _ _ _ _ _ Hl0 Hv0 Hw). auto. }
  destruct (reports self !! rid) as [report |] eqn:Hl.
  - destruct (decide (validation_status report = validating)) as [Hv | Hv].
    + rewrite (get_status_validating _ _ _ _ _ Hl Hv).
      pose proof (always_run _ _ (simulate_never_validating report) s) as Hst.
      intros Hr. eapply Hres in Hr; [| apply lookup_insert_eq | exact Hst].
      destruct Hr as [[Hr Hnv] | (-> & Hw & Hge & Hat)].
      * cbn [reports store] in Hr.
        destruct (decide (rid = rid')) as [<- | Hne].
        -- rewrite lookup_insert_eq in Hr. injection Hr as Heq. subst r'.
           right. split; [reflexivity |]. exists report.
           split; [reflexivity |]. left. split; [exact Hv |].
           split; [exact (Hnv eq_refl) |]. split; reflexivity.
        -- rewrite lookup_insert_ne in Hr by done. auto.
      * right. split; [reflexivity |]. exists report.
        split; [reflexivity |]. right. auto.
    + intros Hr. eapply Hres in Hr; [| exact Hl | exact Hv].
      destruct Hr as [[Hr _] | (-> & Hw & Hge & Hat)]; [auto |].
      right. split; [reflexivity |]. exists report.
      split; [reflexivity |]. right. auto.
  - rewrite (get_status_missing _ _ _ _ Hl). auto.
Qed.

(** Every record of a reachable state is consistent. *)
Lemma reachable_consistent (self : ReportProcessor) :
  reachable self ->
  forall rid r, reports self !! rid = Some r -> reward_consistent r.
Proof.
  induction 1 as [| timestamp uuid4 self report_data s _ IH
                  | now self rid0 s _ IH]; intros rid r.
  - cbn. rewrite lookup_empty. discriminate.
  - destruct (process_submission_run timestamp uuid4 self report_data s)
      as (d & queue & time & s' & Hd & Hrun).
    rewrite Hrun. cbn [fst reports].
    destruct (decide (_generate_report_id timestamp uuid4 = rid)) as [<- | Hne].
    + rewrite lookup_insert_eq. intros [= Heq]. subst r.
      unfold reward_consistent. cbn. case_decide; done.
    + rewrite lookup_insert_ne by done. apply IH.
  - intros Hr. apply get_status_stored in Hr.
    destruct Hr as [Hr | (-> & report & Hl & Hcase)]; [eapply IH, Hr |].
    pose proof (IH _ _ Hl) as Hc. unfold reward_consistent in *.
    destruct Hcase as [(Hv & Hnv & Hrw & Hat) | (Hw & Hge & Hat)].
    + rewrite Hv in Hc. rewrite Hrw, Hat. repeat case_decide; done.
    + rewrite Hw. case_decide; done.
Qed.

(** C4.  A poll of a stored report returns the reward 0 when the status
    it returns is not [verified].  When it is [verified], the reward is
    10, plus 5 when the stored confidence is at least 0.8, plus 5 when
    the category is "water" or "construction", plus 5 when the draw of
    [random.random()] is below 0.3, which has probability 3/10; it is at
    least 10 and is the reward stored in the record.  In a state reached
    from [__init__] the stored reward of a record that is not
    [verified] is 0, and that of a [verified] record at least 10. *)
Theorem get_status_reward (now : string) (self : ReportProcessor)
    (rid : string) (report : Report) (s : source) :
  reports self !! rid = Some report ->
  let base :=
    (10 + (if Float.geb (confidence_score report) 0.8 then 5 else 0)
        + (if bool_decide (category report ∈ ["water"; "construction"])
           then 5 else 0))%Z in
  exists self' resp s' report',
    run (get_status now self rid) s = (self', Returns resp, s') /\
    reports self' !! rid = Some report' /\
    (st_status resp <> verified -> st_reward_coins resp = 0%Z) /\
    (st_status resp = verified ->
       st_reward_coins resp
       = (base + (if Float.ltb (uniforms s 0) 0.3 then 5 else 0))%Z /\
       (10 <= st_reward_coins resp)%Z /\
       reward_coins report' = st_reward_coins resp) /\
    prob (Z.eqb (base + 5)) (_calculate_reward report) == 0.3 /\
    prob (Z.eqb base) (_calculate_reward report) == 0.7 /\
    (reachable self ->
       (validation_status report <> verified -> reward_coins report = 0%Z) /\
       (validation_status report' <> verified -> reward_coins report' = 0%Z) /\
       (validation_status report' = verified ->
          (10 <= reward_coins report')%Z)).
Proof.
  intros Hl base.
  assert (Hres : forall self0 report0 s0,
             reports self0 !! rid = Some report0 ->
             validation_status report0 <> validating ->
             reward_before_bonus report0 = base ->
             uniforms s0 0 = uniforms s 0 ->
             exists self' resp s' report',
               run (get_status now self0 rid) s0 = (self', Returns resp, s') /\
               reports self' !! rid = Some report' /\
               (st_status resp <> verified -> st_reward_coins resp = 0%Z) /\
               (st_status resp = verified ->
                  st_reward_coins resp
                  = (base + (if Float.ltb (uniforms s 0) 0.3 then 5 else 0))%Z /\
                  (10 <= st_reward_coins resp)%Z /\
                  reward_coins report' = st_reward_coins resp)).
  { intros self0 report0 s0 Hl0 Hv0 Hb Hu.
    destruct (decide (validation_status report0 = verified)) as [Hw | Hw].
    - rewrite (get_status_verified _ _ _ _ _ Hl0 Hw).
      eexists _, _, _, _. split; [reflexivity |]. cbn [reports].
      split; [apply lookup_insert_eq |]. cbn [st_status st_reward_coins].
      split; [done |]. intros _. rewrite calculate_reward_run. cbn [fst].
      rewrite Hb, Hu. split; [reflexivity |]. split; [| reflexivity].
      pose proof (reward_before_bonus_ge report0). rewrite Hb in *.
      destruct (Float.ltb _ _); lia.
    - rewrite (get_status_settled _ _ _ _ _ Hl0 Hv0 Hw).
      eexists _, _, _, _. split; [reflexivity |]. split; [exact Hl0 |].
      cbn [st_status st_reward_coins]. split; done. }
  assert (Hgoal : exists self' resp s' report',
             run (get_status now self rid) s = (self', Returns resp, s') /\
             reports self' !! rid = Some report' /\
             (st_status resp <> verified -> st_reward_coins resp = 0%Z) /\
             (st_status resp = verified ->
                st_reward_coins resp
                = (base + (if Float.ltb (uniforms s 0) 0.3 then 5 else 0))%Z /\
                (10 <= st_reward_coins resp)%Z /\
                reward_coins report' = st_reward_coins resp)).
  { destruct (decide (validation_status report = validating)) as [Hv | Hv].
    - rewrite (get_status_validating _ _ _ _ _ Hl Hv).
      eapply Hres.
      + unfold store. cbn [reports]. apply lookup_insert_eq.
      + apply (always_run _ _ (simulate_never_validating report) s).
      + reflexivity.
      + unfold _simulate_validation_completion.
        destruct (Float.geb _ 0.75); [| destruct (Float.geb _ 0.50)];
          reflexivity.
    - eapply Hres; [eassumption | assumption | reflexivity | reflexivity]. }
  destruct Hgoal as (self' & resp & s' & report' & H1 & H2 & H3 & H4).
  exists self', resp, s', report'.
  repeat (split; [assumption |]).
  split; [apply calculate_reward_prob |]. split; [apply calculate_reward_prob |].
  intros Hreach.
  pose proof (reachable_consistent _ Hreach _ _ Hl) as Hc.
  pose proof (reachable_consistent _ (reachable_poll now self rid s Hreach)
                rid report') as Hc'.
  rewrite H1 in Hc'. specialize (Hc' H2).
  unfold reward_consistent in *.
  repeat case_decide; repeat split; intros; try done; tauto.
Qed.

(** C2, as the code has it.  Every poll of a stored report that is
    [verified], [needs-review] or [rejected] returns the stored status
    and leaves it stored.  For [needs-review] and [rejected] the polls
    change nothing and return the reward 0 and the stored verification
    timestamp.  For [verified] each poll draws the reward again (the
    stored confidence and category bonuses and a fresh random bonus),
    returns the time of that poll as verification timestamp, and
    overwrites the stored reward and timestamp with them. *)
Theorem poll_resolved (nows : list string) (self : ReportProcessor)
    (rid : string) (report : Report) (s : source) :
  reports self !! rid = Some report ->
  validation_status report <> validating ->
  exists results self' s' report',
    poll nows self rid s = (results, self', s') /\
    Forall2
      (fun now res =>
         exists resp,
           res = Returns resp /\
           st_status resp = validation_status report /\
           (validation_status report <> verified ->
              st_reward_coins resp = 0%Z /\
              st_verified_at resp = verified_at report) /\
           (validation_status report = verified ->
              (st_reward_coins resp = reward_before_bonus report \/
               st_reward_coins resp = (reward_before_bonus report + 5)%Z) /\
              st_verified_at resp = Some now))
      nows results /\
    reports self' !! rid = Some report' /\
    validation_status report' = validation_status report /\
    (validation_status report <> verified -> self' = self /\ s' = s) /\
    (validation_status report = verified ->
       forall now resp,
         last nows = Some now -> last results = Some (Returns resp) ->
         verified_at report' = Some now /\
         reward_coins report' = st_reward_coins resp).
Proof.
  revert self report s.
  induction nows as [| now nows IH]; intros self report s Hl Hv.
  - exists [], self, s, report. cbn. split; [reflexivity |].
    split; [constructor |]. repeat split; try done.
  - cbn [poll].
    destruct (decide (validation_status report = verified)) as [Hw | Hw].
    + rewrite (get_status_verified _ _ _ _ _ Hl Hw).
      rewrite calculate_reward_run. cbn [fst].
      set (reward := (reward_before_bonus report
                      + (if Float.ltb (uniforms s 0) 0.3 then 5 else 0))%Z).
      set (report1 := set_verified_at (set_reward_coins report reward) now).
      set (self1 := {| reports := <[rid := report1]> (reports self);
                       validation_queue := validation_queue self |}).
      assert (Hl1 : reports self1 !! rid = Some report1)
        by apply lookup_insert_eq.
      assert (Hv1 : validation_status report1 <> validating) by exact Hv.
      destruct (IH self1 report1 (next_uniform s).2 Hl1 Hv1)
        as (results & self' & s' & report' & Hp & Hall & Hl' & Hst & _ & Hlast).
      rewrite Hp. eexists _, self', s', report'. split; [reflexivity |].
      split; [| split; [exact Hl' | split; [exact Hst | split; [done |]]]].
      * constructor.
        -- eexists. split; [reflexivity |]. cbn [st_status st_reward_coins st_verified_at].
           split; [done |]. split; [done |]. intros _. split; [| reflexivity].
           subst reward. destruct (Float.ltb _ _); [right | left]; lia.
        -- eapply Forall2_impl; [exact Hall |].
           intros now1 res1 (resp & -> & Hs & _ & Hver).
           exists resp. split; [reflexivity |]. split; [exact Hs |].
           split; [done |]. intros _. apply Hver. exact Hw.
      * intros _ now0 resp Hn Hr. destruct Hall as [| now1 res1 nows1 results1 _ _].
        -- cbn in Hn, Hr. injection Hn as <-. injection Hr as <-.
           cbn in Hp. injection Hp as <- _. rewrite Hl1 in Hl'.
           injection Hl' as <-. split; reflexivity.
        -- apply (Hlast Hw now0 resp); assumption.
    + rewrite (get_status_settled _ _ _ _ _ Hl Hv Hw).
      destruct (IH self report s Hl Hv)
        as (results & self' & s' & report' & Hp & Hall & Hl' & Hst & Hsame & _).
      rewrite Hp. eexists _, self', s', report'. split; [reflexivity |].
      split; [| split; [exact Hl' | split; [exact Hst | split; [exact Hsame | done]]]].
      constructor; [| exact Hall].
      eexists. split; [reflexivity |]. cbn [st_status st_reward_coins st_verified_at].
      split; [reflexivity |]. split; done.
Qed.

(** C3, on the code.  The decision leads to [validating] with
    probability 7/20 when the confidence is at least 0.75 (never
    otherwise), to [needs-review] with probability 13/20, 1 and 3/10 in
    the high, medium and low band, and to [rejected] with probability
    7/10 when the confidence is below 0.50 (never otherwise); with the
    test [random.random() < 0.7] passed by the draw 0.1, the pick of
    index 1 in a high band gives [needs-review]. *)
Theorem decision_probabilities (category : string) (c : Q) (loc : Q * Q) :
  prob (decides_status validating) (_make_validation_decision category c loc)
  == (if Float.geb c 0.75 then 7 # 20 else 0) /\
  prob (decides_status needs_review) (_make_validation_decision category c loc)
  == (if Float.geb c 0.75 then 13 # 20
      else if Float.geb c 0.50 then 1 else 3 # 10) /\
  prob (decides_status rejected) (_make_validation_decision category c loc)
  == (if Float.geb c 0.50 then 0 else 7 # 10) /\
  prob (decides_status verified) (_make_validation_decision category c loc)
  == 0 /\
  (Float.geb c 0.75 = true ->
   forall s, uniforms s 0 = 0.1%Q -> integers s 0 = 1%nat ->
     d_status (run (_make_validation_decision category c loc) s).1
     = needs_review).
Proof.
  unfold _make_validation_decision, threshold_high, threshold_medium.
  destruct loc as [lat lng].
  destruct (Float.geb c 0.75) eqn:E75.
  - assert (E50 : Float.geb c 0.50 = true).
    { apply geb_ge. apply geb_ge in E75.
      eapply Qle_trans; [| exact E75]. discriminate. }
    rewrite E50. repeat (split; [vm_compute; reflexivity |]).
    intros _ s Hu Hi. cbn. rewrite Hu.
    replace (Float.ltb 0.1 0.7) with true by reflexivity.
    cbn. rewrite Hi. cbn. destruct (Float.ltb _ _); reflexivity.
  - destruct (Float.geb c 0.50) eqn:E50;
      (repeat (split; [vm_compute; reflexivity |])); discriminate.
Qed.

Import Examples.

(** The theorem at the sample report under validation. *)
Lemma get_status_resolves_validating_witness :
  reports pending_processor !! "RPT-20260216111500-a41c07de"
  = Some pending_report /\
  validation_status pending_report = validating /\
  exists self' resp s' report',
    run (get_status "2026-02-16T11:15:04" pending_processor
           "RPT-20260216111500-a41c07de") draws
    = (self', Returns resp, s') /\
    reports self' !! "RPT-20260216111500-a41c07de" = Some report' /\
    validation_status report' = st_status resp /\
    st_status resp <> validating /\
    ((0.75 <= confidence_score pending_report)%Q ->
       st_status resp = verified) /\
    ((0.50 <= confidence_score pending_report < 0.75)%Q ->
       st_status resp
       = nth (integers draws 0 mod 2) [verified; needs_review] verified /\
       prob (returns_status verified)
         (get_status "2026-02-16T11:15:04" pending_processor
            "RPT-20260216111500-a41c07de") == 1 # 2 /\
       prob (returns_status needs_review)
         (get_status "2026-02-16T11:15:04" pending_processor
            "RPT-20260216111500-a41c07de") == 1 # 2) /\
    ((confidence_score pending_report < 0.50)%Q ->
       st_status resp
       = nth (integers draws 0 mod 2) [needs_review; rejected] needs_review /\
       prob (returns_status needs_review)
         (get_status "2026-02-16T11:15:04" pending_processor
            "RPT-20260216111500-a41c07de") == 1 # 2 /\
       prob (returns_status rejected)
         (get_status "2026-02-16T11:15:04" pending_processor
            "RPT-20260216111500-a41c07de") == 1 # 2).
Proof.
  split; [reflexivity |]. split; [reflexivity |].
  apply (get_status_resolves_validating "2026-02-16T11:15:04"
           pending_processor "RPT-20260216111500-a41c07de" pending_report
           draws); reflexivity.
Defined.

(** The theorem at the second poll of the sample submission. *)
Lemma get_status_reward_witness :
  reports first_poll.1.1 !! construction_id = Some verified_report /\
  let base :=
    (10 + (if Float.geb (confidence_score verified_report) 0.8 then 5 else 0)
        + (if bool_decide
                (category verified_report ∈ ["water"; "construction"])
           then 5 else 0))%Z in
  exists self' resp s' report',
    run (get_status "2026-02-16T10:30:09" first_poll.1.1 construction_id)
        first_poll.2
    = (self', Returns resp, s') /\
    reports self' !! construction_id = Some report' /\
    (st_status resp <> verified -> st_reward_coins resp = 0%Z) /\
    (st_status resp = verified ->
       st_reward_coins resp
       = (base + (if Float.ltb (uniforms first_poll.2 0) 0.3
                  then 5 else 0))%Z /\
       (10 <= st_reward_coins resp)%Z /\
       reward_coins report' = st_reward_coins resp) /\
    prob (Z.eqb (base + 5)) (_calculate_reward verified_report) == 0.3 /\
    prob (Z.eqb base) (_calculate_reward verified_report) == 0.7 /\
    (reachable first_poll.1.1 ->
       (validation_status verified_report <> verified ->
          reward_coins verified_report = 0%Z) /\
       (validation_status report' <> verified -> reward_coins report' = 0%Z) /\
       (validation_status report' = verified ->
          (10 <= reward_coins report')%Z)).
Proof.
  split; [reflexivity |].
  apply (get_status_reward "2026-02-16T10:30:09" first_poll.1.1
           construction_id verified_report first_poll.2).
  reflexivity.
Defined.

(** The theorem at two more polls of the sample submission. *)
Lemma poll_resolved_witness :
  reports first_poll.1.1 !! construction_id = Some verified_report /\
  validation_status verified_report <> validating /\
  exists results self' s' report',
    poll ["2026-02-16T10:30:09"; "2026-02-16T10:31:00"] first_poll.1.1
      construction_id first_poll.2
    = (results, self', s') /\
    Forall2
      (fun now res =>
         exists resp,
           res = Returns resp /\
           st_status resp = validation_status verified_report /\
           (validation_status verified_report <> verified ->
              st_reward_coins resp = 0%Z /\
              st_verified_at resp = verified_at verified_report) /\
           (validation_status verified_report = verified ->
              (st_reward_coins resp = reward_before_bonus verified_report \/
               st_reward_coins resp
               = (reward_before_bonus verified_report + 5)%Z) /\
              st_verified_at resp = Some now))
      ["2026-02-16T10:30:09"; "2026-02-16T10:31:00"] results /\
    reports self' !! construction_id = Some report' /\
    validation_status report' = validation_status verified_report /\
    (validation_status verified_report <> verified ->
       self' = first_poll.1.1 /\ s' = first_poll.2) /\
    (validation_status verified_report = verified ->
       forall now resp,
         last ["2026-02-16T10:30:09"; "2026-02-16T10:31:00"] = Some now ->
         last results = Some (Returns resp) ->
         verified_at report' = Some now /\
         reward_coins report' = st_reward_coins resp).
Proof.
  split; [reflexivity |]. split; [discriminate |].
  apply (poll_resolved ["2026-02-16T10:30:09"; "2026-02-16T10:31:00"]
           first_poll.1.1 construction_id verified_report first_poll.2).
  - reflexivity.
  - discriminate.
Defined.

(** C2, as stated, fails.  The report of the sample submission is
    verified by its first poll, with the reward 25 and the verification
    timestamp of that poll; the second poll returns the reward 20 and
    its own time as verification timestamp, and stores both. *)
Lemma second_poll_redraws_reward_and_timestamp :
  stored submitted.1.1 = Some (0%Z, None) /\
  summary first_poll.1.2
  = Some (verified, 25%Z, Some "2026-02-16T10:30:05") /\
  stored first_poll.1.1 = Some (25%Z, Some "2026-02-16T10:30:05") /\
  summary second_poll.1.2
  = Some (verified, 20%Z, Some "2026-02-16T10:30:09") /\
  stored second_poll.1.1 = Some (20%Z, Some "2026-02-16T10:30:09") /\
  summary second_poll.1.2 <> summary first_poll.1.2 /\
  stored second_poll.1.1 <> stored first_poll.1.1.
Proof. repeat split; vm_compute; (reflexivity || discriminate). Qed.

End ProcessorFacts.

(** ** Sorting *)

Module BuiltinsFacts.

Import Builtins.

Section Sort.
Context {A : Type} (key : A -> Z).

Lemma insert_desc_perm (x : A) (l : list A) : insert_desc key x l ≡ₚ x :: l.
Proof.
  induction l as [| y l IH]; cbn; [reflexivity |].
  destruct (key x <? key y)%Z; [| reflexivity].
  rewrite IH. apply Permutation_swap.
Qed.

Lemma sort_reverse_perm (l : list A) : sort_reverse key l ≡ₚ l.
Proof.
  induction l as [| x l IH]; cbn; [reflexivity |].
  rewrite insert_desc_perm. by rewrite IH.
Qed.

Lemma insert_desc_sorted (x : A) (l : list A) :
  StronglySorted (fun a b => (key b <= key a)%Z) l ->
  StronglySorted (fun a b => (key b <= key a)%Z) (insert_desc key x l).
Proof.
  induction l as [| y l IH]; cbn; intros Hs.
  - repeat constructor.
  - apply StronglySorted_inv in Hs as [Hs Hy].
    destruct (key x <? key y)%Z eqn:E.
    + apply Z.ltb_lt in E. constructor; [apply IH, Hs |].
      rewrite insert_desc_perm. constructor; [lia | exact Hy].
    + apply Z.ltb_ge in E. constructor; [constructor; assumption |].
      constructor; [exact E |].
      eapply Forall_impl; [exact Hy |]. cbn. intros z Hz. lia.
Qed.

Lemma sort_reverse_sorted (l : list A) :
  StronglySorted (fun a b => (key b <= key a)%Z) (sort_reverse key l).
Proof.
  induction l as [| x l IH]; cbn; [constructor |].
  apply insert_desc_sorted, IH.
Qed.

(** Stability: the items of one key keep the order they had. *)
Lemma insert_desc_stable (v : Z) (x : A) (l : list A) :
  filter (fun a => key a = v) (insert_desc key x l)
  = filter (fun a => key a = v) (x :: l).
Proof.
  induction l as [| y l IH]; cbn; [reflexivity |].
  destruct (key x <? key y)%Z eqn:E; [| reflexivity].
  apply Z.ltb_lt in E. rewrite filter_cons, IH, !filter_cons.
  repeat case_decide; try reflexivity; lia.
Qed.

Lemma sort_reverse_stable (v : Z) (l : list A) :
  filter (fun a => key a = v) (sort_reverse key l)
  = filter (fun a => key a = v) l.
Proof.
  induction l as [| x l IH]; [reflexivity |].
  change (sort_reverse key (x :: l))
    with (insert_desc key x (sort_reverse key l)).
  rewrite insert_desc_stable, !filter_cons, IH. reflexivity.
Qed.

End Sort.

End BuiltinsFacts.

(** ** The AQI stream simulator *)

Module StreamFacts.

Import Datetime Builtins Stream FloatFacts BuiltinsFacts.

Lemma for_each_length {X A : Type} (xs : list X)
    (body : X -> source -> A * source) (s : source) :
  length (for_each xs body s).1 = length xs.
Proof.
  revert s. induction xs as [| x xs IH]; intros s; cbn; [reflexivity |].
  destruct (body x s) as [a s1]. specialize (IH s1).
  destruct (for_each xs body s1) as [l s2]. cbn in *. by rewrite IH.
Qed.

(** The items of a loop come in the order of the list it runs over. *)
Lemma for_each_map {X A B : Type} (f : A -> B) (g : X -> B) (xs : list X)
    (body : X -> source -> A * source) (s : source) :
  (forall x s0, f (body x s0).1 = g x) ->
  map f (for_each xs body s).1 = map g xs.
Proof.
  intros Hb. revert s. induction xs as [| x xs IH]; intros s; cbn; [reflexivity |].
  specialize (Hb x s). destruct (body x s) as [a s1]. specialize (IH s1).
  destruct (for_each xs body s1) as [l s2]. cbn in *. by rewrite Hb, IH.
Qed.

(** C7.  The synthesized AQI is in [[0, 500]], for every city
    configuration, timestamp and state of the generator (hence every
    noise draw), and whatever [math.exp] returns. *)
Theorem calculate_realistic_aqi_bounds (exp : Q -> Q)
    (city_data : CityConfig) (timestamp : datetime) (s : source) :
  (0 <= (_calculate_realistic_aqi exp city_data timestamp s).1 <= 500)%Q.
Proof.
  unfold _calculate_realistic_aqi, gauss. cbn [next_normal fst snd].
  split.
  - apply max_ge_l.
  - apply max_le; [discriminate | apply min_le_l].
Qed.

(** C6.  For a configured city, the history over "24h" has 25 points
    and the history over "7d" has 8 points, and any other range raises
    the [ValueError] of an invalid time range. *)
Theorem get_history_points (exp : Q -> Q) (self : AQIStreamSimulator)
    (current_time : datetime) (city : string) (city_data : CityConfig)
    (s : source) :
  lookup_city (cities self) city = Some city_data ->
  (exists points,
      (get_history exp self current_time city "24h" s).1 = Returns points /\
      length points = 25%nat) /\
  (exists points,
      (get_history exp self current_time city "7d" s).1 = Returns points /\
      length points = 8%nat) /\
  (forall time_range,
      time_range <> "24h" -> time_range <> "7d" ->
      (get_history exp self current_time city time_range s).1
      = ValueError ("Invalid time range: " ++ time_range
                    ++ ". Use '24h' or '7d'")).
Proof.
  intros Hc. unfold get_history. rewrite Hc. split; [| split].
  - cbn [decide]. destruct (decide ("24h" = "24h")) as [_ | ?]; [| done].
    match goal with
    | |- context [for_each ?xs ?body s] =>
        pose proof (for_each_length xs body s) as Hlen;
        destruct (for_each xs body s) as [points s1]
    end.
    exists points. split; [reflexivity | exact Hlen].
  - destruct (decide ("7d" = "24h")) as [? | _]; [done |].
    destruct (decide ("7d" = "7d")) as [_ | ?]; [| done].
    match goal with
    | |- context [for_each ?xs ?body s] =>
        pose proof (for_each_length xs body s) as Hlen;
        destruct (for_each xs body s) as [points s1]
    end.
    exists points. split; [reflexivity | exact Hlen].
  - intros time_range H24 H7.
    destruct (decide (time_range = "24h")); [done |].
    destruct (decide (time_range = "7d")); [done |]. reflexivity.
Qed.

(** The theorem at Delhi, on a Monday morning. *)
Lemma get_history_points_witness :
  lookup_city (cities init) "Delhi" = Some Examples.delhi /\
  (exists points,
      (get_history Examples.exp_approx init Examples.monday_morning
         "Delhi" "24h" Examples.noise).1 = Returns points /\
      length points = 25%nat) /\
  (exists points,
      (get_history Examples.exp_approx init Examples.monday_morning
         "Delhi" "7d" Examples.noise).1 = Returns points /\
      length points = 8%nat) /\
  (forall time_range,
      time_range <> "24h" -> time_range <> "7d" ->
      (get_history Examples.exp_approx init Examples.monday_morning
         "Delhi" time_range Examples.noise).1
      = ValueError ("Invalid time range: " ++ time_range
                    ++ ". Use '24h' or '7d'")).
Proof.
  split; [reflexivity |].
  apply (get_history_points Examples.exp_approx init Examples.monday_morning
           "Delhi" Examples.delhi Examples.noise).
  reflexivity.
Defined.

Lemma severity_rank_le (aqi : Q) (n : nat) (t : Q) :
  In (n, t) [(0%nat, 50%Q); (1%nat, 100%Q); (2%nat, 150%Q);
             (3%nat, 200%Q); (4%nat, 300%Q)] ->
  (severity_rank (_get_severity aqi) <= n)%nat <-> (aqi <= t)%Q.
Proof.
  unfold _get_severity. intros Hin.
  destruct (Float.leb aqi 50) eqn:E1; [apply leb_le in E1 | apply leb_gt in E1];
  (destruct (Float.leb aqi 100) eqn:E2; [apply leb_le in E2 | apply leb_gt in E2]);
  (destruct (Float.leb aqi 150) eqn:E3; [apply leb_le in E3 | apply leb_gt in E3]);
  (destruct (Float.leb aqi 200) eqn:E4; [apply leb_le in E4 | apply leb_gt in E4]);
  (destruct (Float.leb aqi 300) eqn:E5; [apply leb_le in E5 | apply leb_gt in E5]);
  cbn in Hin;
  repeat (destruct Hin as [Hin | Hin]; [injection Hin as <- <- |]);
  try (destruct Hin); cbn [severity_rank]; split; intros H; try lia; try lra.
Qed.

Lemma severity_rank_max (aqi : Q) :
  (severity_rank (_get_severity aqi) <= 5)%nat.
Proof. destruct (_get_severity aqi); cbn; lia. Qed.

Lemma severity_bands (x : Q) :
  (_get_severity x = good <-> (x <= 50)%Q) /\
  (_get_severity x = moderate <-> (50 < x <= 100)%Q) /\
  (_get_severity x = unhealthy_sensitive <-> (100 < x <= 150)%Q) /\
  (_get_severity x = unhealthy <-> (150 < x <= 200)%Q) /\
  (_get_severity x = very_unhealthy <-> (200 < x <= 300)%Q) /\
  (_get_severity x = hazardous <-> (300 < x)%Q).
Proof.
  unfold _get_severity.
  destruct (Float.leb x 50) eqn:E1; [apply leb_le in E1 | apply leb_gt in E1];
  (destruct (Float.leb x 100) eqn:E2; [apply leb_le in E2 | apply leb_gt in E2]);
  (destruct (Float.leb x 150) eqn:E3; [apply leb_le in E3 | apply leb_gt in E3]);
  (destruct (Float.leb x 200) eqn:E4; [apply leb_le in E4 | apply leb_gt in E4]);
  (destruct (Float.leb x 300) eqn:E5; [apply leb_le in E5 | apply leb_gt in E5]);
  repeat split; intros; try discriminate; try lra.
Qed.

(** C8.  For AQI values [a < b] the severity of [a] ranks no higher
    than the severity of [b], and the bands of the severities are cut
    at 50, 100, 150, 200 and 300, each bound belonging to the lower
    band. *)
Theorem severity_monotone (a b : Q) :
  (a < b)%Q ->
  (severity_rank (_get_severity a) <= severity_rank (_get_severity b))%nat /\
  (forall x : Q,
      (_get_severity x = good <-> (x <= 50)%Q) /\
      (_get_severity x = moderate <-> (50 < x <= 100)%Q) /\
      (_get_severity x = unhealthy_sensitive <-> (100 < x <= 150)%Q) /\
      (_get_severity x = unhealthy <-> (150 < x <= 200)%Q) /\
      (_get_severity x = very_unhealthy <-> (200 < x <= 300)%Q) /\
      (_get_severity x = hazardous <-> (300 < x)%Q)).
Proof.
  intros Hab. split; [| apply severity_bands].
  assert (Hstep : forall n t,
             In (n, t) [(0%nat, 50%Q); (1%nat, 100%Q); (2%nat, 150%Q);
                        (3%nat, 200%Q); (4%nat, 300%Q)] ->
             (severity_rank (_get_severity b) <= n)%nat ->
             (severity_rank (_get_severity a) <= n)%nat).
  { intros n t Hin Hb. apply (severity_rank_le a n t Hin).
    apply (severity_rank_le b n t Hin) in Hb. lra. }
  pose proof (severity_rank_max a) as Hmax.
  destruct (severity_rank (_get_severity b)) as [| [| [| [| [| k]]]]] eqn:Eb;
    [eapply (Hstep 0%nat); [cbn; eauto 6 | lia]
    | eapply (Hstep 1%nat); [cbn; eauto 6 | lia]
    | eapply (Hstep 2%nat); [cbn; eauto 6 | lia]
    | eapply (Hstep 3%nat); [cbn; eauto 6 | lia]
    | eapply (Hstep 4%nat); [cbn; eauto 6 | lia]
    | lia].
Qed.

(** The theorem across the bound at 100. *)
Lemma severity_monotone_witness :
  (100 < 100.5)%Q /\
  (severity_rank (_get_severity 100) <= severity_rank (_get_severity 100.5))%nat /\
  (forall x : Q,
      (_get_severity x = good <-> (x <= 50)%Q) /\
      (_get_severity x = moderate <-> (50 < x <= 100)%Q) /\
      (_get_severity x = unhealthy_sensitive <-> (100 < x <= 150)%Q) /\
      (_get_severity x = unhealthy <-> (150 < x <= 200)%Q) /\
      (_get_severity x = very_unhealthy <-> (200 < x <= 300)%Q) /\
      (_get_severity x = hazardous <-> (300 < x)%Q)).
Proof.
  split; [reflexivity |]. apply (severity_monotone 100 100.5). reflexivity.
Defined.

(** C9.  The list returned by [get_all_cities] has one item for each
    entry of the city table, carrying its name; it is sorted by AQI in
    descending order; and the cities of one AQI value come in the order
    of the table. *)
Theorem get_all_cities_sorted (exp : Q -> Q) (self : AQIStreamSimulator)
    (current_time : datetime) (s : source) :
  let result := (get_all_cities exp self current_time s).1 in
  map ca_name result ≡ₚ map fst (cities self) /\
  length result = length (cities self) /\
  StronglySorted (fun x y => (ca_aqi y <= ca_aqi x)%Z) result /\
  (forall v : Z,
      map ca_name (filter (fun x => ca_aqi x = v) result)
      `sublist_of` map fst (cities self)).
Proof.
  unfold get_all_cities.
  match goal with
  | |- context [for_each ?xs ?body s] =>
      pose proof (for_each_length xs body s) as Hlen;
      pose proof (for_each_map ca_name fst xs body s) as Hmap;
      destruct (for_each xs body s) as [cities_data s1]
  end.
  cbn [fst snd] in *.
  assert (Hnames : map ca_name cities_data = map fst (cities self)).
  { apply Hmap. intros [name cfg] s0.
    destruct (_calculate_realistic_aqi exp cfg current_time s0). reflexivity. }
  split; [| split; [| split]].
  - rewrite <- Hnames. apply Permutation_map, sort_reverse_perm.
  - rewrite <- Hlen. apply Permutation_length, sort_reverse_perm.
  - apply sort_reverse_sorted.
  - intros v. rewrite sort_reverse_stable, <- Hnames.
    apply (fmap_sublist ca_name), sublist_filter.
Qed.

End StreamFacts.


(** ** Rounding *)

Module RoundingFacts.

Import FloatFacts Rounding.

Lemma round_half_even_ge (q : Q) (k : Z) :
  (inject_Z k <= q)%Q -> (k <= Float.round_half_even q)%Z.
Proof.
  intros Hk. assert (Hf : (k <= Qfloor q)%Z).
  { rewrite <- (Qfloor_Z k). apply Qfloor_resp_le, Hk. }
  unfold Float.round_half_even.
  repeat match goal with |- context [if ?b then _ else _] => destruct b end;
    lia.
Qed.

Lemma round_half_even_le (q : Q) (k : Z) :
  (q <= inject_Z k)%Q -> (Float.round_half_even q <= k)%Z.
Proof.
  intros Hk. pose proof (Qfloor_le q) as Hfl.
  assert (Hf : (Qfloor q <= k)%Z).
  { rewrite <- (Qfloor_Z k). apply Qfloor_resp_le, Hk. }
  unfold Float.round_half_even.
  destruct (Float.ltb (q - inject_Z (Qfloor q)) (1 # 2)) eqn:E1; [exact Hf |].
  assert (Hlt : (Qfloor q < k)%Z).
  { apply ltb_ge in E1.
    destruct (Z.eq_dec (Qfloor q) k) as [Heq | Hne]; [| lia].
    rewrite Heq in E1. lra. }
  repeat match goal with |- context [if ?b then _ else _] => destruct b end;
    lia.
Qed.

Lemma hundredths_le (a b : Z) : (a # 100 <= b # 100)%Q <-> (a <= b)%Z.
Proof. unfold Qle. cbn. lia. Qed.

Lemma round2_ge (x : Q) (k : Z) :
  (k # 100 <= x)%Q -> (k # 100 <= Float.round2 x)%Q.
Proof.
  intros Hk. unfold Float.round2. apply hundredths_le, round_half_even_ge.
  assert (H : (inject_Z k == (k # 100) * 100)%Q).
  { unfold Qeq, inject_Z. cbn. lia. }
  rewrite H. lra.
Qed.

Lemma round2_le (x : Q) (k : Z) :
  (x <= k # 100)%Q -> (Float.round2 x <= k # 100)%Q.
Proof.
  intros Hk. unfold Float.round2. apply hundredths_le, round_half_even_le.
  assert (H : (inject_Z k == (k # 100) * 100)%Q).
  { unfold Qeq, inject_Z. cbn. lia. }
  rewrite H. lra.
Qed.

Lemma min_le_r (a b : Q) : (Float.min a b <= b)%Q.
Proof.
  unfold Float.min. destruct (Float.ltb b a) eqn:E; [lra |].
  apply ltb_ge in E. exact E.
Qed.

Lemma min_ge (lo a b : Q) : (lo <= a)%Q -> (lo <= b)%Q -> (lo <= Float.min a b)%Q.
Proof. intros Ha Hb. unfold Float.min. destruct (Float.ltb b a); assumption. Qed.

Lemma tenths_le (a b : Z) : (a # 10 <= b # 10)%Q <-> (a <= b)%Z.
Proof. unfold Qle. cbn. lia. Qed.

Lemma round1_bounds (x : Q) (lo hi : Z) :
  (inject_Z lo <= x <= inject_Z hi)%Q ->
  (inject_Z lo <= round1 x <= inject_Z hi)%Q.
Proof.
  intros [Hlo Hhi]. unfold round1.
  assert (Hl : (inject_Z lo == (lo * 10 # 10))%Q)
    by (unfold Qeq, inject_Z; cbn; lia).
  assert (Hh : (inject_Z hi == (hi * 10 # 10))%Q)
    by (unfold Qeq, inject_Z; cbn; lia).
  rewrite Hl, Hh. split; apply tenths_le.
  - apply round_half_even_ge. rewrite inject_Z_mult.
    change (inject_Z 10) with 10%Q. lra.
  - apply round_half_even_le. rewrite inject_Z_mult.
    change (inject_Z 10) with 10%Q. lra.
Qed.

End RoundingFacts.

(** ** More on the report processor *)

Module LifecycleFacts.

Import Processor RandomFacts FloatFacts ProcessorFacts RoundingFacts.

(** A submission, step by step. *)
Lemma process_submission_steps (timestamp uuid4 : string)
    (self : ReportProcessor) (report_data : ReportData) (s : source) :
  let yolo_confidence :=
    match rd_yolo_result report_data with
    | Some y => default 0.0%Q (confidence y)
    | None => 0.0%Q
    end in
  let rid := _generate_report_id timestamp uuid4 in
  let ds := run (_make_validation_decision (rd_category report_data)
                   yolo_confidence
                   (rd_latitude report_data, rd_longitude report_data)) s in
  let ts := run (_estimate_verification_time (d_status ds.1)) ds.2 in
  run (process_submission timestamp uuid4 self report_data) s
  = ({| reports :=
          <[rid :=
              {| report_id := rid;
                 category := rd_category report_data;
                 latitude := rd_latitude report_data;
                 longitude := rd_longitude report_data;
                 location_name := rd_location_name report_data;
                 yolo_result := rd_yolo_result report_data;
                 submitted_at := rd_timestamp report_data;
                 validation_status := d_status ds.1;
                 validation_reason := d_reason ds.1;
                 confidence_score := d_confidence ds.1;
                 verified_at := None;
                 reward_coins := 0 |}]> (reports self);
        validation_queue :=
          if decide (d_status ds.1 = needs_review)
          then validation_queue self ++ [rid]
          else validation_queue self |},
     {| sr_report_id := rid;
        sr_status := "submitted";
        sr_validation_status := d_status ds.1;
        sr_estimated_verification_time := ts.1;
        sr_message := _get_status_message (d_status ds.1) |},
     ts.2).
Proof.
  intros yolo_confidence rid ds ts. unfold process_submission.
  rewrite run_bind. fold yolo_confidence. fold ds.
  rewrite run_bind. fold rid. fold ts. rewrite run_ret.
  case_decide; reflexivity.
Qed.

Lemma randint_range (a b : Z) (s : source) :
  (a <= b)%Z -> (a <= (run (randint a b) s).1 <= b)%Z.
Proof.
  intros Hab. unfold randint. cbn [run next_integer fst].
  pose proof (Nat.mod_upper_bound (integers s 0) (Z.to_nat (b - a + 1))).
  lia.
Qed.

(** What the decision stores as confidence, by status: a report sent to
    validation has a confidence of at least 0.75, a rejected one of at
    most 0.6. *)
Lemma decision_confidence (category : string) (c : Q) (loc : Q * Q) :
  always (fun d =>
            (d_status d = validating -> (0.75 <= d_confidence d)%Q) /\
            (d_status d = rejected -> (d_confidence d <= 0.6)%Q))
    (_make_validation_decision category c loc).
Proof.
  unfold _make_validation_decision, threshold_high, threshold_medium.
  destruct loc as [lat lng].
  destruct (Float.geb c 0.75) eqn:E75;
    [apply geb_ge in E75
    | apply geb_lt in E75; destruct (Float.geb c 0.50) eqn:E50;
      [apply geb_ge in E50 | apply geb_lt in E50]];
    cbn;
    repeat match goal with
           | |- _ /\ _ => split
           | |- forall i : nat, _ => intros [ | [ | [ | i]]]; cbn
           end;
    try discriminate; intros _.
  all: try (apply (round2_ge _ 75); try apply min_ge; lra).
  all: apply (Qle_trans _ (60 # 100)); [| discriminate];
       apply round2_le; try (eapply Qle_trans; [apply min_le_r |]); lra.
Qed.

Lemma simulate_high (report : Report) (s : source) :
  (0.75 <= confidence_score report)%Q ->
  (run (_simulate_validation_completion report) s).1 = verified.
Proof.
  intros H. apply geb_ge in H. unfold _simulate_validation_completion.
  rewrite H. reflexivity.
Qed.

(** The record of a polled report after the poll. *)
Lemma get_status_record (now : string) (self : ReportProcessor)
    (rid : string) (report : Report) (s : source) :
  reports self !! rid = Some report ->
  exists self' resp s' r',
    run (get_status now self rid) s = (self', Returns resp, s') /\
    reports self' !! rid = Some r' /\
    validation_status r' = st_status resp /\
    validation_status r'
    = (if decide (validation_status report = validating)
       then (run (_simulate_validation_completion report) s).1
       else validation_status report) /\
    validation_status r' <> validating /\
    (report_id r', category r', latitude r', longitude r',
     location_name r', yolo_result r', submitted_at r',
     validation_reason r', confidence_score r')
    = (report_id report, category report, latitude report,
       longitude report, location_name report, yolo_result report,
       submitted_at report, validation_reason report,
       confidence_score report) /\
    (st_category resp, st_location resp, st_submitted_at resp,
     st_confidence_score resp, st_validation_reason resp,
     st_verified_at resp, st_reward_coins resp)
    = (category r', location_name r', submitted_at r',
       confidence_score r', validation_reason r',
       verified_at r', if decide (validation_status r' = verified)
                       then reward_coins r' else 0%Z) /\
    (validation_status r' <> verified ->
       reward_coins r' = reward_coins report /\
       verified_at r' = verified_at report) /\
    (validation_status r' = verified ->
       (10 <= reward_coins r')%Z /\ verified_at r' = Some now).
Proof.
  intros Hl.
  assert (Hres : forall self0 report0 s0,
             reports self0 !! rid = Some report0 ->
             validation_status report0 <> validating ->
             exists self' resp s' r',
               run (get_status now self0 rid) s0 = (self', Returns resp, s') /\
               reports self' !! rid = Some r' /\
               validation_status r' = st_status resp /\
               validation_status r' = validation_status report0 /\
               validation_status r' <> validating /\
               (report_id r', category r', latitude r', longitude r',
                location_name r', yolo_result r', submitted_at r',
                validation_reason r', confidence_score r')
               = (report_id report0, category report0, latitude report0,
                  longitude report0, location_name report0,
                  yolo_result report0, submitted_at report0,
                  validation_reason report0, confidence_score report0) /\
               (st_category resp, st_location resp, st_submitted_at resp,
                st_confidence_score resp, st_validation_reason resp,
                st_verified_at resp, st_reward_coins resp)
               = (category r', location_name r', submitted_at r',
                  confidence_score r', validation_reason r',
                  verified_at r', if decide (validation_status r' = verified)
                                  then reward_coins r' else 0%Z) /\
               (validation_status r' <> verified ->
                  reward_coins r' = reward_coins report0 /\
                  verified_at r' = verified_at report0) /\
               (validation_status r' = verified ->
                  (10 <= reward_coins r')%Z /\ verified_at r' = Some now)).
  { intros self0 report0 s0 Hl0 Hv0.
    destruct (decide (validation_status report0 = verified)) as [Hw | Hw].
    - rewrite (get_status_verified _ _ _ _ _ Hl0 Hw).
      eexists _, _, _, _. split; [reflexivity |]. cbn [reports].
      split; [apply lookup_insert_eq |].
      cbn [validation_status set_verified_at set_reward_coins st_status
           report_id category latitude longitude location_name yolo_result
           submitted_at validation_reason confidence_score verified_at
           reward_coins st_category st_location st_submitted_at
           st_confidence_score st_validation_reason st_verified_at
           st_reward_coins].
      rewrite Hw. destruct (decide (verified = verified)); [| done].
      repeat split; try done.
      rewrite calculate_reward_run. cbn [fst].
      pose proof (reward_before_bonus_ge report0).
      destruct (Float.ltb _ _); lia.
    - rewrite (get_status_settled _ _ _ _ _ Hl0 Hv0 Hw).
      eexists _, _, _, _. split; [reflexivity |]. split; [exact Hl0 |].
      cbn [st_status st_category st_location st_submitted_at
           st_confidence_score st_validation_reason st_verified_at
           st_reward_coins].
      destruct (decide (validation_status report0 = verified)); [done |].
      repeat split; done. }
  destruct (decide (validation_status report = validating)) as [Hv | Hv].
  - rewrite (get_status_validating _ _ _ _ _ Hl Hv).
    pose proof (always_run _ _ (simulate_never_validating report) s) as Hst.
    destruct (Hres
                (store self rid
                   (set_validation_status report
                      (run (_simulate_validation_completion report) s).1))
                (set_validation_status report
                   (run (_simulate_validation_completion report) s).1)
                (run (_simulate_validation_completion report) s).2
                (lookup_insert_eq _ _ _) Hst)
      as (self' & resp & s' & r' & H1 & H2 & H3 & H4 & H5 & H6 & H7 & H8 & H9).
    exists self', resp, s', r'. repeat (split; [assumption |]). exact H9.
  - destruct (Hres _ _ s Hl Hv)
      as (self' & resp & s' & r' & H1 & H2 & H3 & H4 & H5 & H6 & H7 & H8 & H9).
    exists self', resp, s', r'. repeat (split; [assumption |]). exact H9.
Qed.

Lemma get_status_untouched (now : string) (self : ReportProcessor)
    (rid : string) (s : source) :
  (forall rid', rid' <> rid ->
     reports (run (get_status now self rid) s).1.1 !! rid'
     = reports self !! rid') /\
  dom (reports (run (get_status now self rid) s).1.1) = dom (reports self) /\
  validation_queue (run (get_status now self rid) s).1.1
  = validation_queue self.
Proof.
  assert (Hres : forall self0 report0 s0,
             reports self0 !! rid = Some report0 ->
             validation_status report0 <> validating ->
             (forall rid', rid' <> rid ->
                reports (run (get_status now self0 rid) s0).1.1 !! rid'
                = reports self0 !! rid') /\
             dom (reports (run (get_status now self0 rid) s0).1.1)
             = dom (reports self0) /\
             validation_queue (run (get_status now self0 rid) s0).1.1
             = validation_queue self0).
  { intros self0 report0 s0 Hl0 Hv0.
    destruct (decide (validation_status report0 = verified)) as [Hw | Hw].
    - rewrite (get_status_verified _ _ _ _ _ Hl0 Hw). cbn [fst reports validation_queue].
      split; [| split; [| reflexivity]].
      + intros rid' Hne. by rewrite lookup_insert_ne.
      + apply dom_insert_lookup_L. rewrite Hl0. eauto.
    - rewrite (get_status_settled _ _ _ _ _ Hl0 Hv0 Hw). done. }
  destruct (reports self !! rid) as [report |] eqn:Hl.
  - destruct (decide (validation_status report = validating)) as [Hv | Hv].
    + rewrite (get_status_validating _ _ _ _ _ Hl Hv).
      pose proof (always_run _ _ (simulate_never_validating report) s) as Hst.
      destruct (Hres
                  (store self rid
                     (set_validation_status report
                        (run (_simulate_validation_completion report) s).1))
                  (set_validation_status report
                     (run (_simulate_validation_completion report) s).1)
                  (run (_simulate_validation_completion report) s).2
                  (lookup_insert_eq _ _ _) Hst) as (Ho & Hd & Hq).
      split; [| split].
      * intros rid' Hne. rewrite (Ho rid' Hne). cbn [reports store].
        by rewrite lookup_insert_ne.
      * rewrite Hd. cbn [reports store]. apply dom_insert_lookup_L.
        rewrite Hl. eauto.
      * rewrite Hq. reflexivity.
    + eapply Hres; eassumption.
  - rewrite (get_status_missing _ _ _ _ Hl). done.
Qed.

(** X1.  The estimate returned by a submission is between 10 and 30
    seconds when the report goes to review and between 5 and 15
    otherwise, also when it goes to validation: the status handed to
    [_estimate_verification_time] is never ["verified"], so its band of
    3 to 8 seconds is never used. *)
Theorem estimated_time_bands (timestamp uuid4 : string)
    (self : ReportProcessor) (report_data : ReportData) (s : source) :
  let resp := (run (process_submission timestamp uuid4 self report_data) s).1.2 in
  (sr_validation_status resp = needs_review ->
     (10 <= sr_estimated_verification_time resp <= 30)%Z) /\
  (sr_validation_status resp <> needs_review ->
     (5 <= sr_estimated_verification_time resp <= 15)%Z).
Proof.
  rewrite process_submission_steps. cbn [fst snd sr_validation_status
    sr_estimated_verification_time].
  match goal with
  | |- context [run (_make_validation_decision ?c ?y ?l) s] =>
      pose proof (always_run _ _ (decision_never_verified c y l) s) as Hd;
      destruct (run (_make_validation_decision c y l) s) as [d s1]
  end.
  cbn [fst snd] in *. unfold _estimate_verification_time.
  destruct (decide (d_status d = verified)); [done |].
  destruct (decide (d_status d = needs_review)).
  - split; [| done]. intros _. apply randint_range. lia.
  - split; [done |]. intros _. apply randint_range. lia.
Qed.

(** X2.  A poll touches nothing but the record it polls: every other
    record, the set of stored identifiers and the validation queue are
    what they were, also when the poll resolves the report to
    [needs-review]. *)
Theorem get_status_frame (now : string) (self : ReportProcessor)
    (rid : string) (s : source) :
  let self' := (run (get_status now self rid) s).1.1 in
  (forall rid', rid' <> rid -> reports self' !! rid' = reports self !! rid') /\
  dom (reports self') = dom (reports self) /\
  validation_queue self' = validation_queue self.
Proof. apply get_status_untouched. Qed.

(** What holds of every record in a state reached from [__init__]. *)
Lemma reachable_records (self : ReportProcessor) :
  reachable self ->
  forall rid r,
    reports self !! rid = Some r ->
    (validation_status r = validating -> (0.75 <= confidence_score r)%Q) /\
    (validation_status r = rejected -> (confidence_score r <= 0.6)%Q) /\
    report_id r = rid.
Proof.
  induction 1 as [| timestamp uuid4 self report_data s _ IH
                  | now self rid0 s _ IH]; intros rid r.
  - cbn. rewrite lookup_empty. discriminate.
  - rewrite process_submission_steps. cbn [fst reports].
    destruct (decide (_generate_report_id timestamp uuid4 = rid)) as [Heq | Hne].
    + rewrite <- Heq, lookup_insert_eq. intros [= Hr]. subst r.
      cbn [validation_status confidence_score report_id].
      match goal with
      | |- context [run (_make_validation_decision ?c ?y ?l) s] =>
          destruct (always_run _ _ (decision_confidence c y l) s) as [Hv Hj]
      end.
      auto.
    + rewrite lookup_insert_ne by done. apply IH.
  - destruct (get_status_untouched now self rid0 s) as (Ho & _ & _).
    destruct (decide (rid = rid0)) as [-> | Hne];
      [| rewrite (Ho rid Hne); apply IH].
    destruct (reports self !! rid0) as [report |] eqn:Hl;
      [| rewrite (get_status_missing _ _ _ _ Hl); cbn [fst]; congruence].
    destruct (get_status_record now self rid0 report s Hl)
      as (self' & resp & s' & r' & Hrun & Hl' & _ & Hst & Hnv & Hfix & _).
    rewrite Hrun. cbn [fst]. rewrite Hl'. intros [= Hr]. subst r'.
    destruct (IH _ _ Hl) as (Hv & Hj & Hid).
    injection Hfix as Hi _ _ _ _ _ _ _ Hc. rewrite Hc, Hi.
    split; [done |]. split; [| exact Hid].
    intros Hrej. rewrite Hst in Hrej.
    destruct (decide (validation_status report = validating)) as [Hval | _];
      [| auto].
    rewrite (simulate_high report s (Hv Hval)) in Hrej. discriminate.
Qed.

Lemma reachable_queue (self : ReportProcessor) :
  reachable self ->
  Forall (fun rid => is_Some (reports self !! rid)) (validation_queue self).
Proof.
  induction 1 as [| timestamp uuid4 self report_data s _ IH
                  | now self rid0 s _ IH].
  - constructor.
  - rewrite process_submission_steps. cbn [fst reports validation_queue].
    match goal with
    | |- context [<[_ := ?v]> (reports self)] => generalize v; intros rec
    end.
    assert (Hold : Forall
              (fun rid =>
                 is_Some (<[_generate_report_id timestamp uuid4 := rec]>
                            (reports self) !! rid))
              (validation_queue self)).
    { eapply Forall_impl; [exact IH |]. cbn. intros rid [r Hr].
      destruct (decide (_generate_report_id timestamp uuid4 = rid)) as [<- | Hne].
      - rewrite lookup_insert_eq. eauto.
      - rewrite lookup_insert_ne by done. eauto. }
    case_decide; [| exact Hold].
    apply Forall_app. split; [exact Hold |]. constructor; [| constructor].
    rewrite lookup_insert_eq. eauto.
  - destruct (get_status_untouched now self rid0 s) as (_ & Hd & Hq).
    rewrite Hq. eapply Forall_impl; [exact IH |]. cbn. intros rid Hr.
    apply elem_of_dom. rewrite Hd. apply elem_of_dom, Hr.
Qed.

Lemma get_status_keeps_submission_aux (now : string)
    (self : ReportProcessor) (rid : string) (report : Report) (s : source) :
  reports self !! rid = Some report ->
  exists resp,
    (run (get_status now self rid) s).1.2 = Returns resp /\
    st_report_id resp = rid.
Proof.
  intros Hl.
  assert (Hres : forall self0 report0 s0,
             reports self0 !! rid = Some report0 ->
             validation_status report0 <> validating ->
             exists resp,
               (run (get_status now self0 rid) s0).1.2 = Returns resp /\
               st_report_id resp = rid).
  { intros self0 report0 s0 Hl0 Hv0.
    destruct (decide (validation_status report0 = verified)) as [Hw | Hw].
    - rewrite (get_status_verified _ _ _ _ _ Hl0 Hw). eauto.
    - rewrite (get_status_settled _ _ _ _ _ Hl0 Hv0 Hw). eauto. }
  destruct (decide (validation_status report = validating)) as [Hv | Hv].
  - rewrite (get_status_validating _ _ _ _ _ Hl Hv).
    eapply (Hres _ (set_validation_status report _));
      [apply lookup_insert_eq |].
    apply (always_run _ _ (simulate_never_validating report) s).
  - eapply Hres; eassumption.
Qed.

(** X3.  A poll of a stored report leaves in its record what the
    submission wrote (identifier, category, coordinates, location,
    detection result, submission time, reason and confidence), answers
    with these values, and leaves a status that is not [validating] and
    is the status it answers. *)
Theorem get_status_keeps_submission (now : string) (self : ReportProcessor)
    (rid : string) (report : Report) (s : source) :
  reports self !! rid = Some report ->
  exists resp r',
    (run (get_status now self rid) s).1.2 = Returns resp /\
    reports (run (get_status now self rid) s).1.1 !! rid = Some r' /\
    (report_id r', category r', latitude r', longitude r',
     location_name r', yolo_result r', submitted_at r',
     validation_reason r', confidence_score r')
    = (report_id report, category report, latitude report,
       longitude report, location_name report, yolo_result report,
       submitted_at report, validation_reason report,
       confidence_score report) /\
    (st_report_id resp, st_category resp, st_location resp,
     st_submitted_at resp, st_confidence_score resp,
     st_validation_reason resp)
    = (rid, category report, location_name report, submitted_at report,
       confidence_score report, validation_reason report) /\
    validation_status r' <> validating /\
    st_status resp = validation_status r' /\
    st_message resp = _get_status_message (st_status resp).
Proof.
  intros Hl.
  assert (Hid : forall self0 report0 s0,
             reports self0 !! rid = Some report0 ->
             exists resp self' s',
               run (get_status now self0 rid) s0 = (self', Returns resp, s') /\
               st_report_id resp = rid /\
               st_message resp = _get_status_message (st_status resp)).
  { assert (Hres : forall self0 report0 s0,
               reports self0 !! rid = Some report0 ->
               validation_status report0 <> validating ->
               exists resp self' s',
                 run (get_status now self0 rid) s0
                 = (self', Returns resp, s') /\
                 st_report_id resp = rid /\
                 st_message resp = _get_status_message (st_status resp)).
    { intros self0 report0 s0 Hl0 Hv0.
      destruct (decide (validation_status report0 = verified)) as [Hw | Hw].
      - rewrite (get_status_verified _ _ _ _ _ Hl0 Hw). eauto 8.
      - rewrite (get_status_settled _ _ _ _ _ Hl0 Hv0 Hw). eauto 8. }
    intros self0 report0 s0 Hl0.
    destruct (decide (validation_status report0 = validating)) as [Hv | Hv].
    - rewrite (get_status_validating _ _ _ _ _ Hl0 Hv).
      eapply (Hres _ (set_validation_status report0 _));
        [apply lookup_insert_eq |].
      apply (always_run _ _ (simulate_never_validating report0) s0).
    - eapply Hres; eassumption. }
  destruct (Hid self report s Hl) as (resp0 & self0 & s0 & Hrun0 & Hrid & Hmsg).
  destruct (get_status_record now self rid report s Hl)
    as (self' & resp & s' & r' & Hrun & Hl' & Hst & _ & Hnv & Hfix & Hecho & _).
  rewrite Hrun in Hrun0. injection Hrun0 as <- <- <-.
  rewrite Hrun. cbn [fst snd]. exists resp, r'.
  split; [reflexivity |]. split; [exact Hl' |]. split; [exact Hfix |].
  injection Hfix as _ Hc _ _ Hn _ Ht Hr Hf.
  injection Hecho as E1 E2 E3 E4 E5 _ _.
  split; [| split; [exact Hnv | split; [congruence | exact Hmsg]]].
  congruence.
Qed.



(** X6.  A submission followed by a poll of the identifier it
    returned: when the submission answered [validating], the poll
    answers [verified] with a reward of at least 10 and its own time as
    verification timestamp; otherwise the poll answers the status of
    the submission, the reward 0 and no verification timestamp.  The
    poll answers with the category, location and submission time that
    were submitted. *)
Theorem submit_then_poll (timestamp uuid4 now : string)
    (self : ReportProcessor) (report_data : ReportData) (s : source) :
  let sub := run (process_submission timestamp uuid4 self report_data) s in
  let poll := run (get_status now sub.1.1 (sr_report_id sub.1.2)) sub.2 in
  exists resp,
    poll.1.2 = Returns resp /\
    (sr_validation_status sub.1.2 = validating ->
       st_status resp = verified /\ (10 <= st_reward_coins resp)%Z /\
       st_verified_at resp = Some now) /\
    (sr_validation_status sub.1.2 <> validating ->
       st_status resp = sr_validation_status sub.1.2 /\
       st_reward_coins resp = 0%Z /\ st_verified_at resp = None) /\
    (st_report_id resp, st_category resp, st_location resp,
     st_submitted_at resp)
    = (sr_report_id sub.1.2, rd_category report_data,
       rd_location_name report_data, rd_timestamp report_data).
Proof.
  intros sub poll. subst sub poll.
  rewrite process_submission_steps. cbn [fst snd sr_report_id sr_validation_status].
  match goal with
  | |- context [run (_make_validation_decision ?c ?y ?l) s] =>
      pose proof (always_run _ _ (decision_never_verified c y l) s) as Hnv;
      destruct (always_run _ _ (decision_confidence c y l) s) as [Hc _];
      destruct (run (_make_validation_decision c y l) s) as [d s1]
  end.
  cbn [fst snd] in *.
  match goal with
  | |- context [run (get_status now ?self1 ?rid) ?s2] =>
      set (self1' := self1); set (s2' := s2)
  end.
  match type of self1' with
  | _ => match eval unfold self1' in self1' with
         | {| reports := <[_ := ?rec]> _ |} => set (rec' := rec) in *
         end
  end.
  assert (Hl : reports self1' !! _generate_report_id timestamp uuid4
               = Some rec') by apply lookup_insert_eq.
  destruct (get_status_record now self1' _ rec' s2' Hl)
    as (self' & resp & s' & r' & Hrun & Hl' & Hst & Hst' & _ & Hfix & Hecho
        & Hkeep & Hver).
  destruct (get_status_keeps_submission_aux now self1' _ rec' s2' Hl)
    as (resp0 & Hrun0 & Hrid).
  rewrite Hrun in *. cbn [fst snd] in *. injection Hrun0 as <-.
  exists resp. split; [reflexivity |].
  cbn [validation_status confidence_score rec'] in Hst'.
  injection Hfix as _ Hcat _ _ Hloc _ Hsub _ _.
  injection Hecho as E1 E2 E3 _ _ E6 E7.
  cbn in Hcat, Hloc, Hsub.
  split; [| split].
  - intros Hv. rewrite Hv in Hst'. cbn in Hst'.
    rewrite (simulate_high rec' s2' (Hc Hv)) in Hst'.
    destruct (Hver Hst') as [Hge Hat].
    destruct (decide (validation_status r' = verified)); [| done].
    split; [congruence |]. split; congruence.
  - intros Hv.
    destruct (decide (d_status d = validating)); [done |].
    assert (Hw : validation_status r' <> verified) by congruence.
    destruct (Hkeep Hw) as [Hrw Hat].
    destruct (decide (validation_status r' = verified)); [done |].
    split; [congruence |]. split; [congruence |]. rewrite E6, Hat. reflexivity.
  - congruence.
Qed.

(** X7.  In a state reached from [__init__], every record is stored
    under the identifier it carries, and every identifier of the
    validation queue is the key of a stored record. *)
Theorem stored_identifiers (self : ReportProcessor) :
  reachable self ->
  (forall rid r, reports self !! rid = Some r -> report_id r = rid) /\
  (forall rid, rid ∈ validation_queue self -> is_Some (reports self !! rid)).
Proof.
  intros Hreach. split.
  - intros rid r Hl. apply (reachable_records self Hreach rid r Hl).
  - intros rid Hin.
    pose proof (reachable_queue self Hreach) as Hq.
    rewrite Forall_forall in Hq. apply Hq, Hin.
Qed.

Import Examples MoreExamples.

(** X3 at the sample report under validation. *)
Lemma get_status_keeps_submission_witness :
  reports pending_processor !! "RPT-20260216111500-a41c07de"
  = Some pending_report /\
  exists resp r',
    (run (get_status "2026-02-16T11:15:04" pending_processor
            "RPT-20260216111500-a41c07de") draws).1.2 = Returns resp /\
    reports (run (get_status "2026-02-16T11:15:04" pending_processor
                    "RPT-20260216111500-a41c07de") draws).1.1
      !! "RPT-20260216111500-a41c07de" = Some r' /\
    (report_id r', category r', latitude r', longitude r',
     location_name r', yolo_result r', submitted_at r',
     validation_reason r', confidence_score r')
    = (report_id pending_report, category pending_report,
       latitude pending_report, longitude pending_report,
       location_name pending_report, yolo_result pending_report,
       submitted_at pending_report, validation_reason pending_report,
       confidence_score pending_report) /\
    (st_report_id resp, st_category resp, st_location resp,
     st_submitted_at resp, st_confidence_score resp,
     st_validation_reason resp)
    = ("RPT-20260216111500-a41c07de", category pending_report,
       location_name pending_report, submitted_at pending_report,
       confidence_score pending_report, validation_reason pending_report) /\
    validation_status r' <> validating /\
    st_status resp = validation_status r' /\
    st_message resp = _get_status_message (st_status resp).
Proof.
  split; [reflexivity |].
  apply (get_status_keeps_submission "2026-02-16T11:15:04" pending_processor
           "RPT-20260216111500-a41c07de" pending_report draws).
  reflexivity.
Defined.



(** X7 at the sample submission that went to review. *)
Lemma stored_identifiers_witness :
  reachable queued.1.1 /\
  validation_queue queued.1.1 = [queued_id] /\
  (forall rid r, reports queued.1.1 !! rid = Some r -> report_id r = rid) /\
  (forall rid,
      rid ∈ validation_queue queued.1.1 ->
      is_Some (reports queued.1.1 !! rid)).
Proof.
  assert (Hreach : reachable queued.1.1)
    by apply reachable_submit, reachable_init.
  split; [exact Hreach |]. split; [reflexivity |].
  apply (stored_identifiers queued.1.1 Hreach).
Defined.

End LifecycleFacts.

(** ** Report statistics *)

Module AnalyticsFacts.

Import Processor Rounding Analytics FloatFacts RoundingFacts.





(** The number of reports of a category. *)
Lemma count_categories_acc (values : list Report) (acc : gmap string Z)
    (cat : string) :
  foldl (fun categories report =>
           <[category report :=
               (default 0 (categories !! category report) + 1)%Z]> categories)
        acc values !! cat
  = (let c := length (filter (fun r => category r = cat) values) in
     if decide (c = 0%nat) then acc !! cat
     else Some (default 0%Z (acc !! cat) + Z.of_nat c)%Z).
Proof.
  revert acc. induction values as [| r l IH]; intros acc; [reflexivity |].
  cbn [foldl]. rewrite IH, filter_cons. cbn zeta.
  destruct (decide (category r = cat)) as [<- | Hne].
  - rewrite lookup_insert_eq. cbn [length default].
    repeat case_decide; try lia; f_equal; unfold id; lia.
  - rewrite lookup_insert_ne by done. reflexivity.
Qed.

(** X9.  The category table of [get_report_stats] has an entry exactly
    for the categories of the stored reports, and the entry of a
    category is the number of stored reports of that category. *)
Theorem report_stats_categories (self : ReportProcessor) (cat : string) :
  match get_report_stats self with
  | NoReports => True
  | ReportStats _ _ _ _ _ categories =>
      let n :=
        length (filter (fun r => category r = cat)
                  (map_to_list (reports self)).*2) in
      categories !! cat = (if decide (n = 0%nat) then None
                           else Some (Z.of_nat n))
  end.
Proof.
  unfold get_report_stats. case_decide; [exact I |].
  unfold count_categories. rewrite count_categories_acc. cbn zeta.
  rewrite lookup_empty. case_decide; [reflexivity |]. f_equal.
Qed.

End AnalyticsFacts.

(** ** Readings and insights *)

Module ReadingsFacts.

Import Datetime Builtins Stream Rounding Readings.
Import FloatFacts RoundingFacts BuiltinsFacts StreamFacts.

Lemma to_int_floor (x : Q) : (0 <= x)%Q -> Float.to_int x = Qfloor x.
Proof.
  destruct x as [n d]. unfold Qle, Float.to_int. cbn. intros Hn.
  apply Z.quot_div_nonneg; lia.
Qed.

Lemma to_int_bounds (x : Q) (hi : Z) :
  (0 <= x <= inject_Z hi)%Q -> (0 <= Float.to_int x <= hi)%Z.
Proof.
  intros [H0 Hhi]. rewrite (to_int_floor x H0). split.
  - rewrite <- (Qfloor_Z 0). apply Qfloor_resp_le. exact H0.
  - rewrite <- (Qfloor_Z hi). apply Qfloor_resp_le. exact Hhi.
Qed.

(** For a value that is not negative, [int] gives the integer just
    below or at it. *)
Lemma to_int_spec (x : Q) :
  (0 <= x)%Q ->
  (inject_Z (Float.to_int x) <= x < inject_Z (Float.to_int x) + 1)%Q.
Proof.
  intros H0. rewrite (to_int_floor x H0). split; [apply Qfloor_le |].
  pose proof (Qlt_floor x) as H. rewrite inject_Z_plus in H. exact H.
Qed.

Lemma round_half_even_mono (x y : Q) :
  (x <= y)%Q -> (Float.round_half_even x <= Float.round_half_even y)%Z.
Proof.
  intros Hxy.
  pose proof (Qfloor_resp_le x y Hxy) as Hf.
  pose proof (Qfloor_le x) as Hx1. pose proof (Qlt_floor x) as Hx2.
  pose proof (Qfloor_le y) as Hy1. pose proof (Qlt_floor y) as Hy2.
  rewrite inject_Z_plus in Hx2, Hy2.
  unfold Float.round_half_even.
  destruct (Z.eq_dec (Qfloor x) (Qfloor y)) as [He | Hne].
  - rewrite <- He in *.
    destruct (Float.ltb (x - inject_Z (Qfloor x)) (1 # 2)) eqn:E1;
      [apply ltb_lt in E1 | apply ltb_ge in E1];
    (destruct (Float.ltb (1 # 2) (x - inject_Z (Qfloor x))) eqn:E2;
      [apply ltb_lt in E2 | apply ltb_ge in E2]);
    (destruct (Float.ltb (y - inject_Z (Qfloor x)) (1 # 2)) eqn:E3;
      [apply ltb_lt in E3 | apply ltb_ge in E3]);
    (destruct (Float.ltb (1 # 2) (y - inject_Z (Qfloor x))) eqn:E4;
      [apply ltb_lt in E4 | apply ltb_ge in E4]);
    destruct (Z.even (Qfloor x)); try lia; lra.
  - assert (Hlt : (Qfloor x + 1 <= Qfloor y)%Z) by lia.
    repeat match goal with |- context [if ?b then _ else _] => destruct b end;
      lia.
Qed.

Lemma round1_mono (x y : Q) : (x <= y)%Q -> (round1 x <= round1 y)%Q.
Proof.
  intros Hxy. unfold round1. unfold Qle. cbn.
  pose proof (round_half_even_mono (x * 10) (y * 10)) as H.
  assert (Hm : (x * 10 <= y * 10)%Q) by lra. specialize (H Hm). lia.
Qed.

Lemma for_each_Forall {X A : Type} (P : A -> Prop) (xs : list X)
    (body : X -> source -> A * source) (s : source) :
  (forall x s0, P (body x s0).1) -> Forall P (for_each xs body s).1.
Proof.
  intros Hb. revert s. induction xs as [| x xs IH]; intros s; cbn;
    [constructor |].
  specialize (Hb x s). destruct (body x s) as [a s1]. specialize (IH s1).
  destruct (for_each xs body s1) as [l s2]. cbn in *. by constructor.
Qed.

Lemma for_each_Forall2 {X A : Type} (R : X -> A -> Prop) (xs : list X)
    (body : X -> source -> A * source) (s : source) :
  (forall x s0, R x (body x s0).1) -> Forall2 R xs (for_each xs body s).1.
Proof.
  intros Hb. revert s. induction xs as [| x xs IH]; intros s; cbn;
    [constructor |].
  specialize (Hb x s). destruct (body x s) as [a s1]. specialize (IH s1).
  destruct (for_each xs body s1) as [l s2]. cbn in *. by constructor.
Qed.

Lemma Forall2_elem_of_r {X A : Type} (R : X -> A -> Prop) (xs : list X)
    (ys : list A) (y : A) :
  Forall2 R xs ys -> y ∈ ys -> exists x, x ∈ xs /\ R x y.
Proof.
  induction 1 as [| x y' xs ys Hr _ IH]; intros Hin.
  - by apply elem_of_nil in Hin.
  - apply elem_of_cons in Hin as [-> | Hin].
    + exists x. split; [left | exact Hr].
    + destruct (IH Hin) as (x' & Hx' & Hr'). exists x'. split; [by right | done].
Qed.

Lemma severity_rank_mono (a b : Q) :
  (a <= b)%Q ->
  (severity_rank (_get_severity a) <= severity_rank (_get_severity b))%nat.
Proof.
  intros Hab.
  assert (Hstep : forall n t,
             In (n, t) [(0%nat, 50%Q); (1%nat, 100%Q); (2%nat, 150%Q);
                        (3%nat, 200%Q); (4%nat, 300%Q)] ->
             (severity_rank (_get_severity b) <= n)%nat ->
             (severity_rank (_get_severity a) <= n)%nat).
  { intros n t Hin Hb. apply (severity_rank_le a n t Hin).
    apply (severity_rank_le b n t Hin) in Hb. lra. }
  pose proof (severity_rank_max a) as Hmax.
  destruct (severity_rank (_get_severity b)) as [| [| [| [| [| k]]]]] eqn:Eb;
    [eapply (Hstep 0%nat); [cbn; eauto 6 | lia]
    | eapply (Hstep 1%nat); [cbn; eauto 6 | lia]
    | eapply (Hstep 2%nat); [cbn; eauto 6 | lia]
    | eapply (Hstep 3%nat); [cbn; eauto 6 | lia]
    | eapply (Hstep 4%nat); [cbn; eauto 6 | lia]
    | lia].
Qed.

(** The severity of a value follows its integer part by at most the
    band of the next integer. *)
Lemma severity_of_int (aqi : Q) :
  (0 <= aqi)%Q ->
  (severity_rank (_get_severity (inject_Z (Float.to_int aqi)))
   <= severity_rank (_get_severity aqi)
   <= severity_rank (_get_severity (inject_Z (Float.to_int aqi) + 1)))%nat.
Proof.
  intros H0. destruct (to_int_spec aqi H0) as [Hlo Hhi].
  split; apply severity_rank_mono; lra.
Qed.

Ltac split_leb :=
  repeat match goal with
         | |- context [if Float.leb ?x ?t then _ else _] =>
             let E := fresh "E" in
             destruct (Float.leb x t) eqn:E;
             [apply leb_le in E | apply leb_gt in E]
         | H : context [if Float.leb ?x ?t then _ else _] |- _ =>
             let E := fresh "E" in
             destruct (Float.leb x t) eqn:E;
             [apply leb_le in E | apply leb_gt in E]
         end.

Lemma aqi_to_pm25_range (aqi : Q) :
  (0 <= aqi <= 500)%Q -> (0 <= _aqi_to_pm25 aqi <= 450.5)%Q.
Proof. intros [H0 H500]. unfold _aqi_to_pm25. split_leb; lra. Qed.

(** X10.  On AQI values of [[0, 500]] the PM2.5 concentration is
    between 0 and 450.5. *)
Theorem aqi_to_pm25_bounds (aqi : Q) :
  (0 <= aqi <= 500)%Q -> (0 <= _aqi_to_pm25 aqi <= 450.5)%Q.
Proof. apply aqi_to_pm25_range. Qed.

Lemma aqi_to_pm25_bounds_witness :
  (0 <= 372.4 <= 500)%Q /\ (0 <= _aqi_to_pm25 372.4 <= 450.5)%Q.
Proof.
  assert (H : (0 <= 372.4 <= 500)%Q) by (split; discriminate).
  split; [exact H |]. apply (aqi_to_pm25_bounds 372.4 H).
Defined.

(** X11.  Within one severity band the PM2.5 concentration does not
    decrease as the AQI grows.  Across the bounds of the bands it is
    not monotone: it is 40 at AQI 100 and 68 at AQI 150, and lower
    than that just above these bounds. *)
Theorem aqi_to_pm25_band_monotone (a b : Q) :
  (a <= b)%Q ->
  _get_severity a = _get_severity b ->
  (_aqi_to_pm25 a <= _aqi_to_pm25 b)%Q /\
  (_aqi_to_pm25 100 == 40)%Q /\
  (forall x, (100 < x <= 106)%Q -> (_aqi_to_pm25 x < 40)%Q) /\
  (_aqi_to_pm25 150 == 68)%Q /\
  (forall x, (150 < x <= 162)%Q -> (_aqi_to_pm25 x < 68)%Q).
Proof.
  intros Hab Hsev. split; [| split; [reflexivity | split; [| split; [reflexivity |]]]].
  - unfold _get_severity in Hsev. unfold _aqi_to_pm25.
    split_leb; try discriminate; lra.
  - intros x [H1 H2]. unfold _aqi_to_pm25. split_leb; lra.
  - intros x [H1 H2]. unfold _aqi_to_pm25. split_leb; lra.
Qed.

Lemma aqi_to_pm25_band_monotone_witness :
  (120 <= 140.5)%Q /\
  _get_severity 120 = _get_severity 140.5 /\
  (_aqi_to_pm25 120 <= _aqi_to_pm25 140.5)%Q /\
  (_aqi_to_pm25 100 == 40)%Q /\
  (forall x, (100 < x <= 106)%Q -> (_aqi_to_pm25 x < 40)%Q) /\
  (_aqi_to_pm25 150 == 68)%Q /\
  (forall x, (150 < x <= 162)%Q -> (_aqi_to_pm25 x < 68)%Q).
Proof.
  split; [discriminate |]. split; [reflexivity |].
  apply (aqi_to_pm25_band_monotone 120 140.5); [discriminate | reflexivity].
Defined.

Lemma calculate_aqi_range (exp : Q -> Q) (city_data : CityConfig)
    (timestamp : datetime) (s : source) :
  (0 <= (_calculate_realistic_aqi exp city_data timestamp s).1 <= 500)%Q /\
  uniforms (_calculate_realistic_aqi exp city_data timestamp s).2 = uniforms s.
Proof.
  unfold _calculate_realistic_aqi, gauss. cbn [next_normal fst snd uniforms].
  split; [| reflexivity]. split.
  - apply max_ge_l.
  - apply max_le; [discriminate | apply min_le_l].
Qed.

(** What an item computed from the synthesized value [aqi] shows. *)
Lemma displayed_aqi (aqi : Q) :
  (0 <= aqi <= 500)%Q ->
  (0 <= Float.to_int aqi <= 500)%Z /\
  (severity_rank (_get_severity (inject_Z (Float.to_int aqi)))
   <= severity_rank (_get_severity aqi)
   <= severity_rank (_get_severity (inject_Z (Float.to_int aqi) + 1)))%nat.
Proof.
  intros [H0 H500]. split; [| apply severity_of_int, H0].
  apply to_int_bounds. split; [exact H0 | exact H500].
Qed.

(** X12.  [get_current] raises the [ValueError] that lists the
    configured cities exactly when the city is not configured, and
    then draws nothing.  Otherwise it returns a reading for that city
    and time whose AQI is an integer of [[0, 500]]; whose severity and
    description are those of one value, the severity being that of the
    displayed AQI or of the next integer; whose PM2.5 is between 0 and
    450.5; and whose PM10 is between the PM2.5 and 901 when the draw of
    [random.random()] is in [[0, 1]]. *)
Theorem get_current_outcome (exp : Q -> Q) (isoformat : datetime -> string)
    (self : AQIStreamSimulator) (current_time : datetime) (city : string)
    (s : source) :
  match (get_current exp isoformat self current_time city s).1 with
  | ValueError msg =>
      lookup_city (cities self) city = None /\
      (get_current exp isoformat self current_time city s).2 = s /\
      msg = "City '" ++ city ++ "' not found. Available cities: "
            ++ String.concat ", " (map fst (cities self))
  | Returns r =>
      is_Some (lookup_city (cities self) city) /\
      r_city r = city /\
      r_timestamp r = isoformat current_time /\
      (0 <= r_aqi r <= 500)%Z /\
      (exists aqi : Q,
          r_aqi r = Float.to_int aqi /\
          r_severity r = _get_severity aqi /\
          r_description r = _get_description aqi) /\
      (severity_rank (_get_severity (inject_Z (r_aqi r)))
       <= severity_rank (r_severity r)
       <= severity_rank (_get_severity (inject_Z (r_aqi r) + 1)))%nat /\
      (0 <= r_pm25 r <= 450.5)%Q /\
      ((0 <= uniforms s 0 <= 1)%Q -> (r_pm25 r <= r_pm10 r <= 901)%Q)
  end.
Proof.
  unfold get_current.
  destruct (lookup_city (cities self) city) as [city_data |] eqn:Hc;
    [| cbn; done].
  destruct (calculate_aqi_range exp city_data current_time s) as [Hr Hu].
  destruct (_calculate_realistic_aqi exp city_data current_time s) as [aqi s1].
  cbn [fst snd] in Hr, Hu.
  unfold _aqi_to_pm10, uniform. cbn [next_uniform fst snd].
  cbn [r_city r_aqi r_pm25 r_pm10 r_timestamp r_severity r_description].
  rewrite Hu.
  destruct (displayed_aqi aqi Hr) as [Hint Hsev].
  pose proof (aqi_to_pm25_range aqi Hr) as Hpm.
  split; [eauto |]. split; [reflexivity |]. split; [reflexivity |].
  split; [exact Hint |]. split; [eauto |]. split; [exact Hsev |].
  split.
  - split.
    + apply (Qle_trans _ (round1 0)); [discriminate | apply round1_mono; lra].
    + apply (Qle_trans _ (round1 450.5)); [apply round1_mono; lra | discriminate].
  - intros [Hu0 Hu1]. split.
    + apply round1_mono. nra.
    + apply (Qle_trans _ (round1 901)); [apply round1_mono; nra | discriminate].
Qed.

(** X13.  The outcomes of [get_history]: an unknown city raises the
    error of the city, also when the range is invalid; a configured
    city with a range other than "24h" and "7d" raises the error of
    the range; a call that raises draws nothing; and every point
    returned has an AQI of [[0, 500]]. *)
Theorem get_history_outcome (exp : Q -> Q) (self : AQIStreamSimulator)
    (current_time : datetime) (city time_range : string) (s : source) :
  match (get_history exp self current_time city time_range s).1 with
  | ValueError msg =>
      (get_history exp self current_time city time_range s).2 = s /\
      ((lookup_city (cities self) city = None /\
        msg = "City '" ++ city ++ "' not found") \/
       (is_Some (lookup_city (cities self) city) /\
        time_range <> "24h" /\ time_range <> "7d" /\
        msg = "Invalid time range: " ++ time_range
              ++ ". Use '24h' or '7d'"))
  | Returns points =>
      is_Some (lookup_city (cities self) city) /\
      (time_range = "24h" \/ time_range = "7d") /\
      Forall (fun p => (0 <= hp_aqi p <= 500)%Z) points
  end.
Proof.
  unfold get_history.
  destruct (lookup_city (cities self) city) as [city_data |] eqn:Hc;
    [| cbn; auto].
  destruct (decide (time_range = "24h")) as [H24 | H24];
    [| destruct (decide (time_range = "7d")) as [H7 | H7]].
  - match goal with
    | |- context [for_each ?xs ?body s] =>
        assert (Hall : Forall (fun p => (0 <= hp_aqi p <= 500)%Z)
                         (for_each xs body s).1);
        [apply for_each_Forall | destruct (for_each xs body s) as [pts s1]]
    end.
    + intros h s0.
      destruct (calculate_aqi_range exp city_data
                  (minus_hours current_time h) s0) as [Hr _].
      destruct (_calculate_realistic_aqi exp city_data
                  (minus_hours current_time h) s0) as [aqi s1].
      cbn in *. apply (displayed_aqi aqi Hr).
    + cbn in *. eauto.
  - match goal with
    | |- context [for_each ?xs ?body s] =>
        assert (Hall : Forall (fun p => (0 <= hp_aqi p <= 500)%Z)
                         (for_each xs body s).1);
        [apply for_each_Forall | destruct (for_each xs body s) as [pts s1]]
    end.
    + intros d s0.
      destruct (calculate_aqi_range exp city_data
                  (replace_noon (minus_days current_time d)) s0) as [Hr _].
      destruct (_calculate_realistic_aqi exp city_data
                  (replace_noon (minus_days current_time d)) s0) as [aqi s1].
      cbn in *. apply (displayed_aqi aqi Hr).
    + cbn in *. eauto.
  - cbn. split; [reflexivity |]. right. eauto.
Qed.

Lemma strftime_HM_day_before (t : datetime) :
  strftime_HM (minus_hours t 24) = strftime_HM t.
Proof.
  unfold strftime_HM, hour, minute, minus_hours.
  replace ((t - 3600 * 24) mod 86400)%Z with (t mod 86400)%Z.
  - replace ((t - 3600 * 24) mod 3600)%Z with (t mod 3600)%Z; [reflexivity |].
    replace (t - 3600 * 24)%Z with (t + (-24) * 3600)%Z by lia.
    symmetry. apply Z.mod_add. lia.
  - replace (t - 3600 * 24)%Z with (t + (-1) * 86400)%Z by lia.
    symmetry. apply Z.mod_add. lia.
Qed.

(** X14.  For a configured city the labels of the "24h" history are
    the hour and minute of the clock 24, 23, ... and 0 hours back, so
    that the first and the last of the 25 labels are the same; the
    labels of the "7d" history are the month and day of the clock 7,
    6, ... and 0 days back (the values being taken at noon). *)
Theorem get_history_labels (exp : Q -> Q) (self : AQIStreamSimulator)
    (current_time : datetime) (city : string) (city_data : CityConfig)
    (s : source) :
  lookup_city (cities self) city = Some city_data ->
  (exists points,
      (get_history exp self current_time city "24h" s).1 = Returns points /\
      map hp_time points
      = map (fun h => strftime_HM (minus_hours current_time h))
          (range_down 24 (-1)) /\
      hd "" (map hp_time points) = strftime_HM current_time /\
      List.last (map hp_time points) "" = strftime_HM current_time) /\
  (exists points,
      (get_history exp self current_time city "7d" s).1 = Returns points /\
      map hp_time points
      = map (fun d => strftime_bd (minus_days current_time d))
          (range_down 7 (-1))).
Proof.
  intros Hc. unfold get_history. rewrite Hc. split.
  - destruct (decide ("24h" = "24h")) as [_ | ?]; [| done].
    match goal with
    | |- context [for_each ?xs ?body s] =>
        pose proof (for_each_map hp_time
                      (fun h => strftime_HM (minus_hours current_time h))
                      xs body s) as Hmap;
        destruct (for_each xs body s) as [pts s1]
    end.
    cbn [fst] in *. exists pts. split; [reflexivity |].
    assert (Hl : map hp_time pts
                 = map (fun h => strftime_HM (minus_hours current_time h))
                     (range_down 24 (-1))).
    { apply Hmap. intros h s0.
      destruct (_calculate_realistic_aqi exp city_data
                  (minus_hours current_time h) s0). reflexivity. }
    split; [exact Hl |]. rewrite Hl.
    replace (range_down 24 (-1))
      with [24; 23; 22; 21; 20; 19; 18; 17; 16; 15; 14; 13; 12; 11; 10; 9;
            8; 7; 6; 5; 4; 3; 2; 1; 0]%Z by reflexivity.
    cbn [map hd List.last]. split.
    + apply strftime_HM_day_before.
    + replace (minus_hours current_time 0) with current_time
        by (unfold minus_hours; lia).
      reflexivity.
  - destruct (decide ("7d" = "24h")) as [? | _]; [done |].
    destruct (decide ("7d" = "7d")) as [_ | ?]; [| done].
    match goal with
    | |- context [for_each ?xs ?body s] =>
        pose proof (for_each_map hp_time
                      (fun d => strftime_bd (minus_days current_time d))
                      xs body s) as Hmap;
        destruct (for_each xs body s) as [pts s1]
    end.
    cbn [fst] in *. exists pts. split; [reflexivity |].
    apply Hmap. intros d s0.
    destruct (_calculate_realistic_aqi exp city_data
                (replace_noon (minus_days current_time d)) s0). reflexivity.
Qed.

(** X15.  Every item of [get_all_cities] carries the name and the
    coordinates of an entry of the city table, an AQI that is an
    integer of [[0, 500]], and a severity that is the severity of that
    AQI or of the next integer. *)
Theorem get_all_cities_items (exp : Q -> Q) (self : AQIStreamSimulator)
    (current_time : datetime) (s : source) :
  Forall
    (fun item =>
       (exists city_config,
           (ca_name item, city_config) ∈ cities self /\
           ca_lat item = lat city_config /\
           ca_lng item = lng city_config) /\
       (0 <= ca_aqi item <= 500)%Z /\
       (severity_rank (_get_severity (inject_Z (ca_aqi item)))
        <= severity_rank (ca_severity item)
        <= severity_rank (_get_severity (inject_Z (ca_aqi item) + 1)))%nat)
    (get_all_cities exp self current_time s).1.
Proof.
  unfold get_all_cities.
  match goal with
  | |- context [for_each ?xs ?body s] =>
      pose proof (for_each_Forall2
                    (fun (x : string * CityConfig) item =>
                       (ca_name item = x.1 /\ ca_lat item = lat x.2 /\
                        ca_lng item = lng x.2) /\
                       (0 <= ca_aqi item <= 500)%Z /\
                       (severity_rank
                          (_get_severity (inject_Z (ca_aqi item)))
                        <= severity_rank (ca_severity item)
                        <= severity_rank
                             (_get_severity (inject_Z (ca_aqi item) + 1)))%nat)
                    xs body s) as Hall;
      destruct (for_each xs body s) as [cities_data s1]
  end.
  cbn [fst] in *.
  assert (H2 : Forall2
                 (fun (x : string * CityConfig) item =>
                    (ca_name item = x.1 /\ ca_lat item = lat x.2 /\
                     ca_lng item = lng x.2) /\
                    (0 <= ca_aqi item <= 500)%Z /\
                    (severity_rank
                       (_get_severity (inject_Z (ca_aqi item)))
                     <= severity_rank (ca_severity item)
                     <= severity_rank
                          (_get_severity (inject_Z (ca_aqi item) + 1)))%nat)
                 (cities self) cities_data).
  { apply Hall. intros [name cfg] s0.
    destruct (calculate_aqi_range exp cfg current_time s0) as [Hr _].
    destruct (_calculate_realistic_aqi exp cfg current_time s0) as [aqi s2].
    cbn in *. split; [done |]. apply (displayed_aqi aqi Hr). }
  apply Forall_forall. intros item Hin.
  rewrite sort_reverse_perm in Hin.
  destruct (Forall2_elem_of_r _ _ _ _ H2 Hin)
    as ([name cfg] & Hx & (Hn & Hlat & Hlng) & Hb & Hs).
  cbn in *. split; [| split; assumption].
  exists cfg. rewrite Hn. auto.
Qed.

Lemma find_rank_spec (all_cities : list CityAQI) (city : string)
    (start : nat) :
  match find_rank all_cities city start with
  | Some rank =>
      (start <= rank < start + length all_cities)%nat /\
      ca_name <$> all_cities !! (rank - start)%nat = Some city
  | None => city ∉ map ca_name all_cities
  end.
Proof.
  revert start. induction all_cities as [| c l IH]; intros start; cbn.
  - apply not_elem_of_nil.
  - destruct (decide (ca_name c = city)) as [Hc | Hc].
    + split; [lia |]. rewrite Nat.sub_diag. cbn. by rewrite Hc.
    + specialize (IH (S start)).
      destruct (find_rank l city (S start)) as [rank |].
      * destruct IH as [Hr Hl]. split; [lia |].
        replace (rank - start)%nat with (S (rank - S start)) by lia.
        exact Hl.
      * rewrite not_elem_of_cons. split; [congruence | exact IH].
Qed.

Lemma lookup_city_elem_of (l : list (string * CityConfig)) (city : string)
    (cfg : CityConfig) :
  lookup_city l city = Some cfg -> city ∈ map fst l.
Proof.
  induction l as [| [name c] l IH]; cbn; [discriminate |].
  destruct (decide (name = city)) as [-> | Hne].
  - intros _. left.
  - intros H. right. apply IH, H.
Qed.

Lemma sum_bounds (values : list Z) (hi : Z) :
  Forall (fun v => (0 <= v <= hi)%Z) values ->
  (0 <= sum values <= hi * Z.of_nat (length values))%Z.
Proof.
  unfold sum. intros Hall.
  assert (Hacc : forall acc,
             (acc <= fold_left Z.add values acc
              <= acc + hi * Z.of_nat (length values))%Z).
  { induction Hall as [| v l Hv _ IH]; intros acc; cbn [fold_left length];
      [lia |].
    specialize (IH (acc + v)%Z). lia. }
  specialize (Hacc 0%Z). lia.
Qed.

Lemma average_bounds (values : list Z) (hi : Z) :
  values <> [] ->
  Forall (fun v => (0 <= v <= hi)%Z) values ->
  (inject_Z 0
   <= inject_Z (sum values) / inject_Z (Z.of_nat (length values))
   <= inject_Z hi)%Q.
Proof.
  intros Hne Hall. pose proof (sum_bounds values hi Hall) as [H0 H1].
  assert (Hlen : (0 < Z.of_nat (length values))%Z)
    by (destruct values; [done | cbn [length]; lia]).
  assert (Hl : (0 < inject_Z (Z.of_nat (length values)))%Q)
    by (change (inject_Z 0 < inject_Z (Z.of_nat (length values)))%Q;
        rewrite <- Zlt_Qlt; exact Hlen).
  split.
  - apply Qle_shift_div_l; [exact Hl |].
    rewrite <- inject_Z_mult, <- Zle_Qle. lia.
  - apply Qle_shift_div_r; [exact Hl |].
    rewrite <- inject_Z_mult, <- Zle_Qle. lia.
Qed.

Lemma history_24h_run (exp : Q -> Q) (self : AQIStreamSimulator)
    (current_time : datetime) (city : string) (city_data : CityConfig)
    (s : source) :
  lookup_city (cities self) city = Some city_data ->
  exists points s',
    get_history exp self current_time city "24h" s = (Returns points, s') /\
    length points = 25%nat /\
    Forall (fun p => (0 <= hp_aqi p <= 500)%Z) points.
Proof.
  intros Hc. unfold get_history. rewrite Hc.
  destruct (decide ("24h" = "24h")) as [_ | ?]; [| done].
  match goal with
  | |- context [for_each ?xs ?body s] =>
      pose proof (for_each_length xs body s) as Hlen;
      assert (Hall : Forall (fun p => (0 <= hp_aqi p <= 500)%Z)
                       (for_each xs body s).1);
      [apply for_each_Forall | destruct (for_each xs body s) as [pts s1]]
  end.
  - intros h s0.
    destruct (calculate_aqi_range exp city_data
                (minus_hours current_time h) s0) as [Hr _].
    destruct (_calculate_realistic_aqi exp city_data
                (minus_hours current_time h) s0) as [aqi s1].
    cbn in *. apply (displayed_aqi aqi Hr).
  - cbn [fst] in *. eauto.
Qed.

Lemma get_current_run (exp : Q -> Q) (isoformat : datetime -> string)
    (self : AQIStreamSimulator) (current_time : datetime) (city : string)
    (city_data : CityConfig) (s : source) :
  lookup_city (cities self) city = Some city_data ->
  exists r s', get_current exp isoformat self current_time city s
               = (Returns r, s').
Proof.
  intros Hc. unfold get_current. rewrite Hc.
  destruct (_calculate_realistic_aqi exp city_data current_time s) as [aqi s1].
  destruct (_aqi_to_pm10 aqi s1) as [pm10 s2]. eauto.
Qed.

Lemma all_cities_names (exp : Q -> Q) (self : AQIStreamSimulator)
    (current_time : datetime) (s : source) :
  map ca_name (get_all_cities exp self current_time s).1
  ≡ₚ map fst (cities self).
Proof.
  unfold get_all_cities.
  match goal with
  | |- context [for_each ?xs ?body s] =>
      pose proof (for_each_map ca_name fst xs body s) as Hmap;
      destruct (for_each xs body s) as [cities_data s1]
  end.
  cbn [fst] in *. rewrite <- Hmap.
  - apply Permutation_map, sort_reverse_perm.
  - intros [name cfg] s0.
    destruct (_calculate_realistic_aqi exp cfg current_time s0). reflexivity.
Qed.

(** X16.  [get_insights] raises the [ValueError] of an unknown city
    exactly when the city is not configured, without drawing, and never
    the [IndexError] of an empty history or the [StopIteration] of the
    rank search.  Otherwise it answers for
    that city, with the number of configured cities as total, a rank
    between 1 and that total which is the position of the city in the
    list [get_all_cities] returns on the draws left by [get_current]
    and [get_history], a 24-hour average between 0 and 500, and the
    trend "increasing" exactly when the last point of that history is
    above the first. *)
Theorem get_insights_outcome (exp : Q -> Q) (isoformat : datetime -> string)
    (self : AQIStreamSimulator)
    (t_current t_history t_cities t_text : datetime) (city : string)
    (s : source) :
  match (get_insights exp isoformat self t_current t_history t_cities
           t_text city s).1 with
  | InsightsIndexError | InsightsStopIteration => False
  | InsightsValueError msg =>
      lookup_city (cities self) city = None /\
      msg = "City '" ++ city ++ "' not found" /\
      (get_insights exp isoformat self t_current t_history t_cities
         t_text city s).2 = s
  | InsightsReturns i =>
      is_Some (lookup_city (cities self) city) /\
      i_city i = city /\
      i_total_cities i = length (cities self) /\
      (1 <= i_rank i <= i_total_cities i)%nat /\
      (0 <= i_avg_24h i <= 500)%Q /\
      (let s1 := (get_current exp isoformat self t_current city s).2 in
       let s2 := (get_history exp self t_history city "24h" s1).2 in
       ca_name <$> (get_all_cities exp self t_cities s2).1
                     !! (i_rank i - 1)%nat = Some city /\
       exists points,
         (get_history exp self t_history city "24h" s1).1 = Returns points /\
         i_trend i
         = if (hd 0 (map hp_aqi points)
               <? List.last (map hp_aqi points) 0)%Z
           then increasing else decreasing)
  end.
Proof.
  unfold get_insights.
  destruct (lookup_city (cities self) city) as [city_data |] eqn:Hc;
    [| cbn; done].
  destruct (get_current_run exp isoformat self t_current city city_data s Hc)
    as (current & s1 & Hcur).
  rewrite Hcur. cbn [snd].
  destruct (history_24h_run exp self t_history city city_data s1 Hc)
    as (points & s2 & Hhist & Hlen & Hall).
  rewrite Hhist. cbn [fst snd].
  destruct (map hp_aqi points) as [| first rest] eqn:Hvals;
    [apply (f_equal length) in Hvals; rewrite length_map, Hlen in Hvals;
     discriminate |].
  pose proof (all_cities_names exp self t_cities s2) as Hnames.
  destruct (get_all_cities exp self t_cities s2) as [all_cities s3].
  cbn [fst] in Hnames.
  pose proof (find_rank_spec all_cities city 1) as Hrank.
  assert (Htotal : length all_cities = length (cities self)).
  { rewrite <- (length_map ca_name all_cities),
      <- (length_map fst (cities self)).
    apply Permutation_length, Hnames. }
  destruct (find_rank all_cities city 1) as [rank |].
  - destruct Hrank as [Hr Hpos]. cbn [fst i_city i_total_cities i_rank
      i_avg_24h i_trend].
    split; [eauto |]. split; [reflexivity |]. split; [exact Htotal |].
    split; [lia |]. split.
    + apply (round1_bounds _ 0 500). apply average_bounds; [done |].
      rewrite <- Hvals. apply Forall_map. exact Hall.
    + split; [exact Hpos |]. exists points. rewrite Hvals.
      split; reflexivity.
  - cbn [fst]. apply Hrank. rewrite Hnames.
    apply (lookup_city_elem_of _ _ _ Hc).
Qed.

Lemma get_history_labels_witness :
  lookup_city (cities init) "Delhi" = Some Examples.delhi /\
  (exists points,
      (get_history Examples.exp_approx init Examples.monday_morning
         "Delhi" "24h" Examples.noise).1 = Returns points /\
      map hp_time points
      = map (fun h => strftime_HM (minus_hours Examples.monday_morning h))
          (range_down 24 (-1)) /\
      hd "" (map hp_time points) = strftime_HM Examples.monday_morning /\
      List.last (map hp_time points) ""
      = strftime_HM Examples.monday_morning) /\
  (exists points,
      (get_history Examples.exp_approx init Examples.monday_morning
         "Delhi" "7d" Examples.noise).1 = Returns points /\
      map hp_time points
      = map (fun d => strftime_bd (minus_days Examples.monday_morning d))
          (range_down 7 (-1))).
Proof.
  split; [reflexivity |].
  apply (get_history_labels Examples.exp_approx init Examples.monday_morning
           "Delhi" Examples.delhi Examples.noise).
  reflexivity.
Defined.

End ReadingsFacts.

(** ** The detector *)

Module DetectorFacts.

Import Rounding Detector FloatFacts RoundingFacts.







(** Taking the item at [j] out of the [n] first items of a list without
    repetition, by moving the last of them to its place. *)
Lemma swap_remove (pool : list string) (n j : nat) :
  (j < n <= length pool)%nat ->
  NoDup (take n pool) ->
  NoDup (take (n - 1) (<[j := nth (n - 1) pool ""]> pool)) /\
  (forall y,
      y ∈ take (n - 1) (<[j := nth (n - 1) pool ""]> pool) ->
      y ∈ take n pool /\ y <> nth j pool "").
Proof.
  intros [Hj Hn] Hnd.
  assert (Hat : forall i, (i < n)%nat ->
                          take n pool !! i = Some (nth i pool "")).
  { intros i Hi. rewrite lookup_take_lt by lia.
    destruct (lookup_lt_is_Some_2 pool i) as [x Hx]; [lia |].
    rewrite Hx. f_equal. symmetry. apply nth_lookup_Some, Hx. }
  assert (Hnew : forall i y,
             take (n - 1) (<[j := nth (n - 1) pool ""]> pool) !! i = Some y ->
             (i < n - 1)%nat /\
             y = nth (if decide (i = j) then n - 1 else i)%nat pool "").
  { intros i y Hy.
    assert (Hi : (i < n - 1)%nat).
    { apply lookup_lt_Some in Hy. rewrite length_take in Hy. lia. }
    split; [exact Hi |]. rewrite lookup_take_lt in Hy by lia.
    destruct (decide (i = j)) as [-> | Hne].
    - rewrite list_lookup_insert_eq in Hy by lia. congruence.
    - rewrite list_lookup_insert_ne in Hy by done.
      symmetry. apply nth_lookup_Some, Hy. }
  assert (Hinj : forall a b, (a < n)%nat -> (b < n)%nat ->
                             nth a pool "" = nth b pool "" -> a = b).
  { intros a b Ha Hb Hab. apply NoDup_alt with (l := take n pool)
      (x := nth a pool ""); [exact Hnd | by apply Hat |].
    rewrite Hab. by apply Hat. }
  split.
  - apply NoDup_alt. intros i1 i2 y H1 H2.
    apply Hnew in H1 as [Hi1 ->]. apply Hnew in H2 as [Hi2 H2].
    apply Hinj in H2; repeat case_decide; lia.
  - intros y Hy. apply list_elem_of_lookup in Hy as [i Hi].
    apply Hnew in Hi as [Hi ->]. split.
    + apply list_elem_of_lookup. eexists. apply Hat. case_decide; lia.
    + intros Heq. apply Hinj in Heq; repeat case_decide; lia.
Qed.

Lemma sample_loop_spec (k : nat) (pool : list string) (n : nat) (s : source) :
  (k <= n <= length pool)%nat ->
  NoDup (take n pool) ->
  length (sample_loop pool n k s).1 = k /\
  NoDup (sample_loop pool n k s).1 /\
  (forall x, x ∈ (sample_loop pool n k s).1 -> x ∈ take n pool).
Proof.
  revert pool n s. induction k as [| k IH]; intros pool n s [Hk Hn] Hnd.
  - cbn. split; [reflexivity |]. split; [constructor |].
    intros x Hx. by apply elem_of_nil in Hx.
  - cbn [sample_loop next_integer].
    set (j := (integers s 0 mod n)%nat).
    assert (Hj : (j < n)%nat) by (apply Nat.mod_upper_bound; lia).
    destruct (swap_remove pool n j) as [Hnd' Hsub]; [lia | exact Hnd |].
    match goal with
    | |- context [sample_loop ?pool' (n - 1) k ?s'] =>
        destruct (IH pool' (n - 1)%nat s') as (Hlen & Hnd2 & Hin);
        [rewrite length_insert; lia | exact Hnd' |];
        destruct (sample_loop pool' (n - 1) k s') as [result s2]
    end.
    cbn [fst length] in *. split; [lia |]. split.
    + constructor; [| exact Hnd2].
      intros Hx. apply Hin, Hsub in Hx as [_ Hx]. done.
    + intros x Hx. apply elem_of_cons in Hx as [-> | Hx].
      * apply list_elem_of_lookup. exists j. rewrite lookup_take_lt by lia.
        destruct (lookup_lt_is_Some_2 pool j) as [y Hy]; [lia |].
        rewrite Hy. f_equal. symmetry. apply nth_lookup_Some, Hy.
      * apply Hin, Hsub in Hx as [Hx _]. exact Hx.
Qed.

(** X18.  The detected objects are distinct items of the pool of the
    category: two of them when the confidence is below 0.5, three when
    it is below 0.7 and four otherwise, and none for a category without
    pool. *)
Theorem detected_objects_sample (category : string) (confidence : Q)
    (s : source) :
  let objects := (_generate_detected_objects category confidence s).1 in
  NoDup objects /\
  (forall x, x ∈ objects -> x ∈ object_pool category) /\
  length objects
  = (if bool_decide (category ∈ ["air"; "garbage"; "construction"; "water"])
     then (if Float.ltb confidence 0.5 then 2
           else if Float.ltb confidence 0.7 then 3 else 4)
     else 0)%nat.
Proof.
  unfold _generate_detected_objects, sample.
  set (k := if Float.ltb confidence 0.5 then 2%nat
            else if Float.ltb confidence 0.7 then 3%nat else 4%nat).
  assert (Hk : (2 <= k <= 4)%nat)
    by (subst k; repeat case_match; lia).
  assert (Hpool : NoDup (object_pool category) /\
                  length (object_pool category)
                  = (if bool_decide
                          (category ∈ ["air"; "garbage"; "construction";
                                       "water"])
                     then length (object_pool category) else 0)%nat /\
                  (bool_decide
                     (category ∈ ["air"; "garbage"; "construction"; "water"])
                   = true ->
                   (5 <= length (object_pool category))%nat)).
  { unfold object_pool.
    destruct (decide (category = "air")) as [-> | H1];
      [split; [by apply (bool_decide_unpack _); vm_compute
              | split; [reflexivity | intros _; cbn; lia]] |].
    destruct (decide (category = "garbage")) as [-> | H2];
      [split; [by apply (bool_decide_unpack _); vm_compute
              | split; [reflexivity | intros _; cbn; lia]] |].
    destruct (decide (category = "construction")) as [-> | H3];
      [split; [by apply (bool_decide_unpack _); vm_compute
              | split; [reflexivity | intros _; cbn; lia]] |].
    destruct (decide (category = "water")) as [-> | H4];
      [split; [by apply (bool_decide_unpack _); vm_compute
              | split; [reflexivity | intros _; cbn; lia]] |].
    assert (Hout : bool_decide
                     (category ∈ ["air"; "garbage"; "construction"; "water"])
                   = false).
    { apply bool_decide_eq_false_2.
      rewrite !elem_of_cons, elem_of_nil. tauto. }
    rewrite Hout. split; [constructor | split; [reflexivity | discriminate]]. }
  destruct Hpool as (Hnd & Hlen & H5).
  destruct (sample_loop_spec
              (Nat.min k (length (object_pool category)))
              (object_pool category) (length (object_pool category)) s)
    as (Hl & Hn & Hin); [lia | by rewrite firstn_all |].
  split; [exact Hn |]. split.
  - intros x Hx. apply Hin in Hx. by rewrite firstn_all in Hx.
  - rewrite Hl.
    destruct (bool_decide
                (category ∈ ["air"; "garbage"; "construction"; "water"]));
      [specialize (H5 eq_refl); lia | lia].
Qed.


End DetectorFacts.

(** ** From detection to reward *)

Module PipelineFacts.

Import Processor Detector RandomFacts FloatFacts ProcessorFacts.
Import RoundingFacts LifecycleFacts DetectorFacts.
Import Examples MoreExamples DetectorExamples.

Lemma decision_below_high (category : string) (c : Q) (loc : Q * Q) :
  (c < 0.75)%Q ->
  always (fun d => d_status d = needs_review \/ d_status d = rejected)
    (_make_validation_decision category c loc).
Proof.
  intros Hc. apply geb_lt in Hc.
  unfold _make_validation_decision, threshold_high, threshold_medium.
  destruct loc as [lat lng]. rewrite Hc.
  destruct (Float.geb c 0.50); cbn;
    repeat match goal with
           | |- _ /\ _ => split
           | |- forall i : nat, _ => intros [ | [ | [ | i]]]; cbn
           end; auto.
Qed.

(** A submission whose detection confidence is below 0.75, and the poll
    of it. *)
Lemma submit_poll_below_high (timestamp uuid4 now : string)
    (self : ReportProcessor) (report_data : ReportData) (s : source) :
  (match rd_yolo_result report_data with
   | Some y => default 0.0 (confidence y)
   | None => 0.0
   end < 0.75)%Q ->
  let sub := run (process_submission timestamp uuid4 self report_data) s in
  (sr_validation_status sub.1.2 = needs_review \/
   sr_validation_status sub.1.2 = rejected) /\
  exists resp,
    (run (get_status now sub.1.1 (sr_report_id sub.1.2)) sub.2).1.2
    = Returns resp /\
    st_status resp = sr_validation_status sub.1.2 /\
    st_reward_coins resp = 0%Z /\
    st_verified_at resp = None.
Proof.
  intros Hc sub. subst sub. rewrite process_submission_steps.
  cbn [fst snd sr_report_id sr_validation_status].
  match goal with
  | |- context [run (_make_validation_decision ?c ?y ?l) s] =>
      pose proof (always_run _ _ (decision_below_high c y l Hc) s) as Hd;
      destruct (run (_make_validation_decision c y l) s) as [d s1]
  end.
  cbn [fst snd] in *. split; [exact Hd |].
  match goal with
  | |- context [run (get_status now ?self1 ?rid) ?s2] =>
      match self1 with
      | {| reports := <[_ := ?rec]> _ |} =>
          rewrite (get_status_settled now self1 rid rec s2)
      end
  end.
  - eexists. split; [reflexivity |]. done.
  - apply lookup_insert_eq.
  - cbn. destruct Hd as [-> | ->]; discriminate.
  - cbn. destruct Hd as [-> | ->]; discriminate.
Qed.

(** X19.  A submission whose detection confidence is below 0.75, and
    so one without detection result, goes to review or is rejected,
    never to validation; the poll that follows answers that status,
    the reward 0 and no verification timestamp. *)
Theorem below_high_never_verified (timestamp uuid4 now : string)
    (self : ReportProcessor) (report_data : ReportData) (s : source) :
  (match rd_yolo_result report_data with
   | Some y => default 0.0 (confidence y)
   | None => 0.0
   end < 0.75)%Q ->
  let sub := run (process_submission timestamp uuid4 self report_data) s in
  (sr_validation_status sub.1.2 = needs_review \/
   sr_validation_status sub.1.2 = rejected) /\
  exists resp,
    (run (get_status now sub.1.1 (sr_report_id sub.1.2)) sub.2).1.2
    = Returns resp /\
    st_status resp = sr_validation_status sub.1.2 /\
    st_reward_coins resp = 0%Z /\
    st_verified_at resp = None.
Proof. apply submit_poll_below_high. Qed.


(** X19 at a submission without detection result. *)
Lemma below_high_never_verified_witness :
  (match rd_yolo_result bare_report with
   | Some y => default 0.0 (confidence y)
   | None => 0.0
   end < 0.75)%Q /\
  let sub :=
    run (process_submission "20260216120000"
           "5d0c2a91-0e1f-4a6b-b7c3-9d8e2f4a1b77" init bare_report)
        draws in
  (sr_validation_status sub.1.2 = needs_review \/
   sr_validation_status sub.1.2 = rejected) /\
  exists resp,
    (run (get_status "2026-02-16T12:00:07" sub.1.1 (sr_report_id sub.1.2))
         sub.2).1.2
    = Returns resp /\
    st_status resp = sr_validation_status sub.1.2 /\
    st_reward_coins resp = 0%Z /\
    st_verified_at resp = None.
Proof.
  split; [reflexivity |].
  apply (below_high_never_verified "20260216120000"
           "5d0c2a91-0e1f-4a6b-b7c3-9d8e2f4a1b77" "2026-02-16T12:00:07"
           init bare_report draws).
  reflexivity.
Defined.


End PipelineFacts.
